(** * craft-archives: the apt source synchronizer

    A shallow embedding of [craft_archives/repo/apt_sources_manager.py]:
    the deb-822 renderer [_construct_deb822_source], the file
    synchronizer [AptSourcesManager._install_sources], the three
    canonicalizers [_install_sources_apt], [_install_sources_ppa],
    [_install_sources_uca], the orchestrator
    [install_package_repository_sources] and the architecture registrar
    [_add_architecture].

    Python text is modelled as [string] (the UTF-8 bytes of the text), a
    [pathlib.Path] as the text [str(path)] gives, [Optional[List[str]]] as
    [option (list string)], the sources directory as a finite map from
    paths to nodes, and exceptions plus side effects through a small
    state-and-exception monad over the [World]. *)

From Stdlib Require Import Ascii String.
From stdpp Require Import base option list strings gmap.

(** ** Python primitives used by the module *)

Module Py.

(** [sep.join(l)] *)
Fixpoint join (sep : string) (l : list string) : string :=
  match l with
  | [] => ""
  | [x] => x
  | x :: rest => x +:+ sep +:+ join sep rest
  end.

(** [s.endswith(suffix)]: some tail of [s] is [suffix]. *)
Fixpoint endswith (s suffix : string) : bool :=
  if String.eqb s suffix then true
  else match s with
       | EmptyString => false
       | String _ rest => endswith rest suffix
       end.

(** Truth value of an [Optional[List[str]]]: [None] and [[]] are false. *)
Definition truthy {A : Type} (o : option (list A)) : bool :=
  match o with
  | Some (_ :: _) => true
  | _ => false
  end.

(** Truth value of an [Optional[str]]: [None] and [""] are false. *)
Definition truthy_str (o : option string) : bool :=
  match o with
  | Some (String _ _) => true
  | _ => false
  end.

(** The list behind a truthy optional list ([[]] for [None]). *)
Definition items {A : Type} (o : option (list A)) : list A :=
  default [] o.

Definition CR : ascii := ascii_of_nat 13.
Definition LF : ascii := ascii_of_nat 10.

(** What a text-mode read returns for the stored bytes: Python opens
    the file with universal newlines, so ["\r\n"] and a lone ["\r"] both
    come back as ["\n"].  (A text-mode write on Linux stores the text as
    it is.) *)
Fixpoint universal_newlines (s : string) : string :=
  match s with
  | EmptyString => EmptyString
  | String c rest =>
      if Ascii.eqb c CR then
        match rest with
        | String c' rest' =>
            if Ascii.eqb c' LF then String LF (universal_newlines rest')
            else String LF (universal_newlines rest)
        | EmptyString => String LF EmptyString
        end
      else String c (universal_newlines rest)
  end.

(** [print(text, file=buf)]: the text and a newline are appended. *)
Definition print (text : string) (buf : string) : string :=
  buf +:+ text +:+ String LF EmptyString.

End Py.

(** ** Data model *)

(** A [pathlib.Path], as its text. *)
Definition Path : Type := string.

(** [directory / file_name], for a directory written without a trailing
    slash and a file name that is a single relative path segment. *)
Definition path_join (directory : Path) (file_name : string) : Path :=
  directory +:+ "/" +:+ file_name.

(** The repository descriptors.  The classes of [package_repository] are
    not part of the sources at hand; their fields are those the sources
    manager reads and the unit tests set. *)
Module package_repository.

(** Modelled from the spec: the Plain variant, with optional suite list,
    component list, format list, architecture list and exact sub-path, a
    required signing-key identifier and URL, and its [name]. *)

Record PackageRepositoryApt : Type := {
  architectures : option (list string);
  components : option (list string);
  formats : option (list string);
  key_id : string;
  name : string;
  path : option string;
  suites : option (list string);
  url : string
}.

(** Modelled from the spec: the PPA variant, a single string
    [owner/name]. *)
Record PackageRepositoryAptPPA : Type := { ppa : string }.

(** Modelled from the spec: the Cloud variant, a cloud codename and a
    pocket name. *)
Record PackageRepositoryAptUCA : Type := {
  cloud : string;
  pocket : string
}.

(** The [isinstance] dispatch of the orchestrator sees one of the three
    descriptor classes, or some other [PackageRepository]. *)
Inductive PackageRepository : Type :=
| Apt (package_repo : PackageRepositoryApt)
| AptPPA (package_repo : PackageRepositoryAptPPA)
| AptUCA (package_repo : PackageRepositoryAptUCA)
| Unhandled.

(** Modelled from the spec: [UCA_ARCHIVE], the well-known cloud-archive
    base URL, with the value the unit test expects in the URIs field. *)
Definition UCA_ARCHIVE : string :=
  "http://ubuntu-cloud.archive.canonical.com/ubuntu".

End package_repository.

(** The exceptions the module raises or lets through, each with the
    values it carries (messages are kept short). *)
Inductive Exception : Type :=
| AptGPGKeyringError (keyring_path : Path)
| AptPPAInstallError (ppa reason : string)
| AptUCAInstallError (cloud pocket codename : string)
| RuntimeError (message : string)
| CalledProcessError (cmd : list string)
| IsADirectoryError (filename : Path)
| FileNotFoundError (filename : Path)
| ResolverError (message : string).

Inductive Result (A : Type) : Type :=
| Ok (value : A)
| Raise (exc : Exception).
Arguments Ok {A} value.
Arguments Raise {A} exc.

(** What lies at a path of the file system. *)
Inductive Node : Type :=
| File (content : string)
| Dir.

(** The side effects the module performs, in the order they happen. *)
Inductive Event : Type :=
| WriteText (config_path : Path) (data : string)
| SubprocessRun (cmd : list string).

(** The host: its files and the record of the effects performed so far. *)
Record World : Type := {
  fs : gmap string Node;
  trace : list Event
}.

(** The facts and collaborators outside this module, fixed during a run:
    - [get_host_architecture]: [utils.get_host_architecture()];
    - [codename]: [distro.codename()];
    - [get_keyring_path key_id base_path]:
      [apt_key_manager.get_keyring_path];
    - [get_launchpad_ppa_key_id ppa]: the Launchpad key lookup, which may
      fail;
    - [release_compatible codename cloud pocket]: whether the cloud archive
      serves that release;
    - [subprocess_succeeds cmd]: whether the command exits with status 0;
    - [UCA_KEY_ID]: the cloud archive's key identifier. *)
Record Env : Type := {
  get_host_architecture : string;
  codename : string;
  get_keyring_path : string -> Path -> Path;
  get_launchpad_ppa_key_id : string -> Result string;
  release_compatible : string -> string -> string -> bool;
  subprocess_succeeds : list string -> bool;
  UCA_KEY_ID : string
}.

(** ** The monad of effects: a world in, a result and a world out *)

Definition M (A : Type) : Type := World -> Result A * World.

Definition ret {A : Type} (a : A) : M A := fun w => (Ok a, w).

Definition raise {A : Type} (e : Exception) : M A := fun w => (Raise e, w).

Definition bind {A B : Type} (m : M A) (k : A -> M B) : M B :=
  fun w =>
    match m w with
    | (Ok a, w') => k a w'
    | (Raise e, w') => (Raise e, w')
    end.

(** A pure computation that may raise. *)
Definition lift {A : Type} (r : Result A) : M A := fun w => (r, w).

Declare Scope py_scope.
Delimit Scope py_scope with py.
Notation "'let*' x ':=' c 'in' k" := (bind c (fun x => k))
  (at level 10, x pattern, c at level 100, k at level 200) : py_scope.
Notation "c '>>' k" := (bind c (fun _ => k))
  (at level 90, right associativity) : py_scope.
Open Scope py_scope.

(** *** File system and process primitives *)

(** [path.is_file()] *)
Definition is_file (p : Path) : M bool :=
  fun w => (Ok match fs w !! p with Some (File _) => true | _ => false end, w).

(** [path.exists()] *)
Definition exists_ (p : Path) : M bool :=
  fun w => (Ok match fs w !! p with Some _ => true | None => false end, w).

(** [path.read_text()] *)
Definition read_text (p : Path) : M string :=
  fun w =>
    match fs w !! p with
    | Some (File content) => (Ok (Py.universal_newlines content), w)
    | Some Dir => (Raise (IsADirectoryError p), w)
    | None => (Raise (FileNotFoundError p), w)
    end.

(** [path.write_text(data)]: creates or overwrites the file.  The parent
    directory is taken to exist. *)
Definition write_text (p : Path) (data : string) : M unit :=
  fun w =>
    match fs w !! p with
    | Some Dir => (Raise (IsADirectoryError p), w)
    | _ => (Ok tt, {| fs := <[p := File data]> (fs w);
                      trace := trace w ++ [WriteText p data] |})
    end.

(** [subprocess.run(cmd, check=True)] *)
Definition subprocess_run (env : Env) (cmd : list string) : M unit :=
  fun w =>
    let w' := {| fs := fs w; trace := trace w ++ [SubprocessRun cmd] |} in
    if subprocess_succeeds env cmd then (Ok tt, w')
    else (Raise (CalledProcessError cmd), w').

(** ** Collaborators that live outside the module *)

Module apt_ppa.

(** The text before and after the first ["/"] of [s], if it has one. *)
Fixpoint split_at_slash (s : string) : option (string * string) :=
  match s with
  | EmptyString => None
  | String c rest =>
      if Ascii.eqb c "/" then Some (EmptyString, rest)
      else match split_at_slash rest with
           | Some (before, after) => Some (String c before, after)
           | None => None
           end
  end.

(** Modelled from the spec: [apt_ppa.split_ppa_parts] is not part of the
    sources at hand.  It parses [owner/name]; a string with no
    separating slash fails with a PPA-format error naming the original
    string (the unit test gives the reason text).  The spec fixes
    nothing for a string with several slashes; the split is taken at
    the first one. *)
Definition split_ppa_parts (ppa : string) : Result (string * string) :=
  match split_at_slash ppa with
  | Some (owner, name) => Ok (owner, name)
  | None => Raise (AptPPAInstallError ppa "invalid PPA format")
  end.

End apt_ppa.

Module apt_uca.

(** Modelled from the spec: [apt_uca.check_release_compatibility] is not
    part of the sources at hand.  It validates (host codename, cloud,
    pocket) against the archive; an incompatible combination fails with
    a cloud-archive error naming the cloud, the pocket and the host
    codename; on success it returns nothing. *)
Definition check_release_compatibility
    (env : Env) (codename cloud pocket : string) : Result unit :=
  if release_compatible env codename cloud pocket then Ok tt
  else Raise (AptUCAInstallError cloud pocket codename).

End apt_uca.

(** ** The module [apt_sources_manager] *)

(** The keyword arguments of [_install_sources] (and, without [name], of
    [_construct_deb822_source], where the keyring is called [signed_by]). *)
Record SourceArgs : Type := {
  architectures : option (list string);
  components : option (list string);
  formats : option (list string);
  name : string;
  suites : list string;
  url : string;
  keyring_path : Path
}.

(** The state of an [AptSourcesManager]. *)
Record AptSourcesManager : Type := {
  _sources_list_d : Path;
  _keyrings_dir : Path
}.

Section apt_sources_manager.

Variable env : Env.

(** [_construct_deb822_source]: the lines are printed to a buffer one
    after the other, and the buffer's value is returned. *)
Definition _construct_deb822_source
    (architectures components formats : option (list string))
    (suites : list string) (url : string) (signed_by : Path) : string :=
  let deb822 := "" in
  let type_text :=
    if Py.truthy formats then Py.join " " (Py.items formats) else "deb" in
  let deb822 := Py.print ("Types: " +:+ type_text) deb822 in
  let deb822 := Py.print ("URIs: " +:+ url) deb822 in
  let suites_text := Py.join " " suites in
  let deb822 := Py.print ("Suites: " +:+ suites_text) deb822 in
  let deb822 :=
    if Py.truthy components then
      let components_text := Py.join " " (Py.items components) in
      Py.print ("Components: " +:+ components_text) deb822
    else deb822 in
  let arch_text :=
    if Py.truthy architectures then Py.join " " (Py.items architectures)
    else get_host_architecture env in
  let deb822 := Py.print ("Architectures: " +:+ arch_text) deb822 in
  let deb822 := Py.print ("Signed-By: " +:+ signed_by) deb822 in
  deb822.

Variable self : AptSourcesManager.

(** [AptSourcesManager._install_sources].  A [Path] is always true, so
    the guard on the keyring is [not keyring_path.is_file()]; the
    logging calls have no effect on the host. *)
Definition _install_sources (kw : SourceArgs) : M bool :=
  let* keyring_is_file := is_file (keyring_path kw) in
  if negb keyring_is_file then raise (AptGPGKeyringError (keyring_path kw))
  else
    let config :=
      _construct_deb822_source (architectures kw) (components kw)
        (formats kw) (suites kw) (url kw) (keyring_path kw) in
    let name :=
      if bool_decide (name kw ∉ ["default"; "default-security"])
      then "craft-" +:+ name kw else name kw in
    let config_path := path_join (_sources_list_d self) (name +:+ ".sources") in
    let* config_exists := exists_ config_path in
    let* installed :=
      (if config_exists
       then (let* text := read_text config_path in
             ret (String.eqb text config))
       else ret false) in
    if installed then ret false
    else (write_text config_path config >> ret true).

(** [AptSourcesManager._install_sources_apt] *)
Definition _install_sources_apt
    (package_repo : package_repository.PackageRepositoryApt) : M bool :=
  let* suites :=
    (if negb (Py.truthy_str (package_repository.path package_repo))
        && negb (Py.truthy (package_repository.components package_repo))
        && negb (Py.truthy (package_repository.suites package_repo))
     then ret ["/"]
     else if Py.truthy_str (package_repository.path package_repo) then
       let path := default "" (package_repository.path package_repo) in
       let path := if negb (Py.endswith path "/") then path +:+ "/" else path in
       ret [path]
     else if Py.truthy (package_repository.suites package_repo) then
       ret (Py.items (package_repository.suites package_repo))
     else raise (RuntimeError "no suites or path")) in
  let name := package_repository.name package_repo in
  let keyring_path :=
    get_keyring_path env (package_repository.key_id package_repo)
      (_keyrings_dir self) in
  _install_sources
    {| architectures := package_repository.architectures package_repo;
       components := package_repository.components package_repo;
       formats := package_repository.formats package_repo;
       name := name;
       suites := suites;
       url := package_repository.url package_repo;
       keyring_path := keyring_path |}.

(** [AptSourcesManager._install_sources_ppa] *)
Definition _install_sources_ppa
    (package_repo : package_repository.PackageRepositoryAptPPA) : M bool :=
  let* (owner, name) :=
    lift (apt_ppa.split_ppa_parts (package_repository.ppa package_repo)) in
  let codename := codename env in
  let* key_id :=
    lift (get_launchpad_ppa_key_id env (package_repository.ppa package_repo)) in
  let keyring_path := get_keyring_path env key_id (_keyrings_dir self) in
  _install_sources
    {| architectures := None;
       components := Some ["main"];
       formats := Some ["deb"];
       name := "ppa-" +:+ owner +:+ "_" +:+ name;
       suites := [codename];
       url := "http://ppa.launchpad.net/" +:+ owner +:+ "/" +:+ name
              +:+ "/ubuntu";
       keyring_path := keyring_path |}.

(** [AptSourcesManager._install_sources_uca] *)
Definition _install_sources_uca
    (package_repo : package_repository.PackageRepositoryAptUCA) : M bool :=
  let cloud := package_repository.cloud package_repo in
  let pocket := package_repository.pocket package_repo in
  let codename := codename env in
  lift (apt_uca.check_release_compatibility env codename cloud pocket) >>
  let key_id := UCA_KEY_ID env in
  let keyring_path := get_keyring_path env key_id (_keyrings_dir self) in
  _install_sources
    {| architectures := None;
       components := Some ["main"];
       formats := Some ["deb"];
       name := "cloud-" +:+ cloud;
       suites := [codename +:+ "-" +:+ pocket +:+ "/" +:+ cloud];
       url := package_repository.UCA_ARCHIVE;
       keyring_path := keyring_path |}.

(** [_add_architecture]: one [dpkg --add-architecture] per entry, in
    list order; a failing command ends the loop with its exception. *)
Fixpoint _add_architecture (architectures : list string) : M unit :=
  match architectures with
  | [] => ret tt
  | arch :: rest =>
      subprocess_run env ["dpkg"; "--add-architecture"; arch] >>
      _add_architecture rest
  end.

(** [AptSourcesManager.install_package_repository_sources] *)
Definition install_package_repository_sources
    (package_repo : package_repository.PackageRepository) : M bool :=
  match package_repo with
  | package_repository.AptPPA package_repo =>
      _install_sources_ppa package_repo
  | package_repository.AptUCA package_repo =>
      _install_sources_uca package_repo
  | package_repository.Apt package_repo =>
      let* changed := _install_sources_apt package_repo in
      let architectures := package_repository.architectures package_repo in
      if changed && Py.truthy architectures
      then (_add_architecture (Py.items architectures) >> ret changed)
      else ret changed
  | package_repository.Unhandled =>
      raise (RuntimeError "unhandled package repository")
  end.

End apt_sources_manager.

(** ** Specification-level definitions *)

(** One line of a stanza: [key: value] and a newline. *)
Definition field_line (field : string * string) : string :=
  fst field +:+ ": " +:+ snd field +:+ String Py.LF "".

(** The text of a stanza: its lines, one after the other. *)
Definition stanza_text (fields : list (string * string)) : string :=
  foldr (fun field text => field_line field +:+ text) "" fields.

(** The stanza the specification describes for a canonical record: the
    fields in their fixed order, every list joined by single spaces, the
    Components field present only for a non-empty component list, Types
    falling back to [deb] and Architectures to the host architecture. *)
Definition deb822_stanza (host_architecture : string)
    (architectures components formats : option (list string))
    (suites : list string) (url : string) (signed_by : Path)
    : list (string * string) :=
  [("Types", match formats with
             | Some (fmt :: more) => Py.join " " (fmt :: more)
             | _ => "deb"
             end);
   ("URIs", url);
   ("Suites", Py.join " " suites)]
  ++ match components with
     | Some (comp :: more) => [("Components", Py.join " " (comp :: more))]
     | _ => []
     end
  ++ [("Architectures", match architectures with
                        | Some (arch :: more) => Py.join " " (arch :: more)
                        | _ => host_architecture
                        end);
      ("Signed-By", signed_by)].

(** The rendered text of the keyword arguments of [_install_sources]. *)
Definition rendered (env : Env) (kw : SourceArgs) : string :=
  _construct_deb822_source env (architectures kw) (components kw) (formats kw)
    (suites kw) (url kw) (keyring_path kw).

(** The file name the specification derives from a record name: the
    reserved names pass through, every other name gains the prefix
    [craft-]; the suffix [.sources] is appended. *)
Definition source_file_name (record_name : string) : string :=
  (if String.eqb record_name "default" then record_name
   else if String.eqb record_name "default-security" then record_name
   else "craft-" +:+ record_name) +:+ ".sources".

(** The place of a record's file in the manager's sources directory. *)
Definition source_file (self : AptSourcesManager) (record_name : string)
    : Path :=
  path_join (_sources_list_d self) (source_file_name record_name).

(** The file at [p] reads back as [text]. *)
Definition installed (w : World) (p : Path) (text : string) : bool :=
  match fs w !! p with
  | Some (File content) => String.eqb (Py.universal_newlines content) text
  | _ => false
  end.

(** The world after [data] has been written to [p]. *)
Definition written (w : World) (p : Path) (data : string) : World :=
  {| fs := <[p := File data]> (fs w);
     trace := trace w ++ [WriteText p data] |}.

(** The command that registers one architecture. *)
Definition dpkg_add_architecture (arch : string) : list string :=
  ["dpkg"; "--add-architecture"; arch].

(** The commands of a trace, in order (what a recording of
    [subprocess.run] shows). *)
Definition subprocess_calls (events : list Event) : list (list string) :=
  omap (fun event => match event with
                     | SubprocessRun cmd => Some cmd
                     | WriteText _ _ => None
                     end) events.

(** The files written in a trace, in order. *)
Definition writes (events : list Event) : list (Path * string) :=
  omap (fun event => match event with
                     | WriteText p data => Some (p, data)
                     | SubprocessRun _ => None
                     end) events.

(** The architectures whose registration is attempted: those up to and
    including the first one whose command fails. *)
Fixpoint attempted (env : Env) (architectures : list string) : list string :=
  match architectures with
  | [] => []
  | arch :: rest =>
      if subprocess_succeeds env (dpkg_add_architecture arch)
      then arch :: attempted env rest
      else [arch]
  end.

(** The first architecture whose registration fails, if any. *)
Definition first_failure (env : Env) (architectures : list string)
    : option string :=
  List.find (fun arch => negb (subprocess_succeeds env (dpkg_add_architecture arch)))
    architectures.

(** The canonicalizer chosen by the orchestrator's dispatch, before any
    architecture registration. *)
Definition canonicalize (env : Env) (self : AptSourcesManager)
    (package_repo : package_repository.PackageRepository) : M bool :=
  match package_repo with
  | package_repository.AptPPA r => _install_sources_ppa env self r
  | package_repository.AptUCA r => _install_sources_uca env self r
  | package_repository.Apt r => _install_sources_apt env self r
  | package_repository.Unhandled =>
      raise (RuntimeError "unhandled package repository")
  end.

(** The suite list the specification gives a Plain descriptor: [["/"]]
    for a bare repository, the path with a trailing slash enforced when
    a path is given, else the descriptor's own suites. *)
Definition plain_suites (r : package_repository.PackageRepositoryApt)
    : Result (list string) :=
  match package_repository.path r with
  | Some (String c rest) =>
      let path := String c rest in
      Ok [if Py.endswith path "/" then path else path +:+ "/"]
  | _ =>
      match package_repository.suites r with
      | Some (suite :: more) => Ok (suite :: more)
      | _ =>
          match package_repository.components r with
          | Some (_ :: _) => Raise (RuntimeError "no suites or path")
          | _ => Ok ["/"]
          end
      end
  end.

(** The Canonical Source Record of a descriptor, as the specification
    derives it: the keyword arguments the canonicalizer hands to the
    synchronizer, or the error that stops it before. *)
Definition canonical_record (env : Env) (self : AptSourcesManager)
    (package_repo : package_repository.PackageRepository)
    : Result SourceArgs :=
  match package_repo with
  | package_repository.Apt r =>
      match plain_suites r with
      | Ok suites =>
          Ok {| architectures := package_repository.architectures r;
                components := package_repository.components r;
                formats := package_repository.formats r;
                name := package_repository.name r;
                suites := suites;
                url := package_repository.url r;
                keyring_path :=
                  get_keyring_path env (package_repository.key_id r)
                    (_keyrings_dir self) |}
      | Raise e => Raise e
      end
  | package_repository.AptPPA r =>
      match apt_ppa.split_ppa_parts (package_repository.ppa r) with
      | Ok (owner, name) =>
          match get_launchpad_ppa_key_id env (package_repository.ppa r) with
          | Ok key_id =>
              Ok {| architectures := None;
                    components := Some ["main"];
                    formats := Some ["deb"];
                    name := "ppa-" +:+ owner +:+ "_" +:+ name;
                    suites := [codename env];
                    url := "http://ppa.launchpad.net/" +:+ owner +:+ "/"
                           +:+ name +:+ "/ubuntu";
                    keyring_path :=
                      get_keyring_path env key_id (_keyrings_dir self) |}
          | Raise e => Raise e
          end
      | Raise e => Raise e
      end
  | package_repository.AptUCA r =>
      match apt_uca.check_release_compatibility env (codename env)
              (package_repository.cloud r) (package_repository.pocket r) with
      | Ok _ =>
          Ok {| architectures := None;
                components := Some ["main"];
                formats := Some ["deb"];
                name := "cloud-" +:+ package_repository.cloud r;
                suites := [codename env +:+ "-" +:+ package_repository.pocket r
                           +:+ "/" +:+ package_repository.cloud r];
                url := package_repository.UCA_ARCHIVE;
                keyring_path :=
                  get_keyring_path env (UCA_KEY_ID env) (_keyrings_dir self) |}
      | Raise e => Raise e
      end
  | package_repository.Unhandled =>
      Raise (RuntimeError "unhandled package repository")
  end.

(** The keys of a stanza, in order. *)
Definition stanza_keys (fields : list (string * string)) : list string :=
  map fst fields.

(** ** A concrete host, after the fixtures of the unit tests *)

Module Fixture.

Definition env : Env := {|
  get_host_architecture := "FAKE-HOST-ARCH";
  codename := "FAKE-CODENAME";
  get_keyring_path := fun _ base_path => path_join base_path "craft-AAAAAAAA.gpg";
  get_launchpad_ppa_key_id := fun _ => Ok "FAKE-PPA-SIGNING-KEY";
  release_compatible := fun _ cloud _ => negb (String.eqb cloud "FAKE-CLOUD");
  subprocess_succeeds := fun cmd =>
    negb (bool_decide (cmd = dpkg_add_architecture "riscv64"));
  UCA_KEY_ID := "391A9AA2147192839E9DB0315EDB1B62EC4926EA"
|}.

Definition mgr : AptSourcesManager := {|
  _sources_list_d := "/tmp/sources.list.d";
  _keyrings_dir := "/tmp/keyrings"
|}.

(** A host where the keyring is in place and no source file is. *)
Definition fresh : World := {|
  fs := {[ "/tmp/keyrings/craft-AAAAAAAA.gpg" := File "" ]};
  trace := []
|}.

(** A host with nothing in place. *)
Definition empty : World := {| fs := ∅; trace := [] |}.

(** A host where the keyring is in place and the source file of
    [apt_bare] (below) is already installed. *)
Definition settled : World := {|
  fs := {[ "/tmp/keyrings/craft-AAAAAAAA.gpg" := File "";
           "/tmp/sources.list.d/craft-http_test_url_ubuntu.sources" :=
             File (stanza_text
                     [("Types", "deb");
                      ("URIs", "http://test.url/ubuntu");
                      ("Suites", "/");
                      ("Architectures", "FAKE-HOST-ARCH");
                      ("Signed-By", "/tmp/keyrings/craft-AAAAAAAA.gpg")]) ]};
  trace := []
|}.

Definition apt_suites : package_repository.PackageRepositoryApt := {|
  package_repository.architectures := Some ["amd64"; "arm64"];
  package_repository.components := Some ["test-component"];
  package_repository.formats := Some ["deb"; "deb-src"];
  package_repository.key_id := "AAAAAAAAAAAAAAAAAAAAAAAAAAAAAAAAAAAAAAAA";
  package_repository.name := "http_test_url_ubuntu";
  package_repository.path := None;
  package_repository.suites := Some ["test-suite1"; "test-suite2"];
  package_repository.url := "http://test.url/ubuntu"
|}.

Definition apt_path : package_repository.PackageRepositoryApt := {|
  package_repository.architectures := Some ["amd64"; "arm64"];
  package_repository.components := None;
  package_repository.formats := Some ["deb"; "deb-src"];
  package_repository.key_id := "AAAAAAAAAAAAAAAAAAAAAAAAAAAAAAAAAAAAAAAA";
  package_repository.name := "http_test_url_ubuntu";
  package_repository.path := Some "dir/subdir";
  package_repository.suites := None;
  package_repository.url := "http://test.url/ubuntu"
|}.

(** A descriptor with a path and a component list: the validation of
    [package_repository] rejects it, the sources manager does not. *)
Definition apt_path_components : package_repository.PackageRepositoryApt := {|
  package_repository.architectures := None;
  package_repository.components := Some ["main"];
  package_repository.formats := None;
  package_repository.key_id := "AAAAAAAAAAAAAAAAAAAAAAAAAAAAAAAAAAAAAAAA";
  package_repository.name := "http_test_url_ubuntu";
  package_repository.path := Some "dir/subdir";
  package_repository.suites := None;
  package_repository.url := "http://test.url/ubuntu"
|}.

Definition apt_bare : package_repository.PackageRepositoryApt := {|
  package_repository.architectures := None;
  package_repository.components := None;
  package_repository.formats := None;
  package_repository.key_id := "AAAAAAAAAAAAAAAAAAAAAAAAAAAAAAAAAAAAAAAA";
  package_repository.name := "http_test_url_ubuntu";
  package_repository.path := None;
  package_repository.suites := None;
  package_repository.url := "http://test.url/ubuntu"
|}.

(** A descriptor whose second architecture cannot be registered. *)
Definition apt_riscv : package_repository.PackageRepositoryApt := {|
  package_repository.architectures := Some ["amd64"; "riscv64"; "arm64"];
  package_repository.components := Some ["main"];
  package_repository.formats := None;
  package_repository.key_id := "AAAAAAAAAAAAAAAAAAAAAAAAAAAAAAAAAAAAAAAA";
  package_repository.name := "http_test_url_ubuntu";
  package_repository.path := None;
  package_repository.suites := Some ["jammy"];
  package_repository.url := "http://test.url/ubuntu"
|}.

(** A descriptor whose URL ends with a carriage return. *)
Definition apt_carriage_return : package_repository.PackageRepositoryApt := {|
  package_repository.architectures := None;
  package_repository.components := None;
  package_repository.formats := None;
  package_repository.key_id := "AAAAAAAAAAAAAAAAAAAAAAAAAAAAAAAAAAAAAAAA";
  package_repository.name := "http_test_url_ubuntu";
  package_repository.path := None;
  package_repository.suites := None;
  package_repository.url := "http://test.url/ubuntu" +:+ String Py.CR ""
|}.

Definition ppa : package_repository.PackageRepositoryAptPPA :=
  {| package_repository.ppa := "test/ppa" |}.

Definition ppa_missing_slash : package_repository.PackageRepositoryAptPPA :=
  {| package_repository.ppa := "ppa-missing-slash" |}.

Definition uca : package_repository.PackageRepositoryAptUCA :=
  {| package_repository.cloud := "fake-cloud";
     package_repository.pocket := "updates" |}.

Definition uca_invalid : package_repository.PackageRepositoryAptUCA :=
  {| package_repository.cloud := "FAKE-CLOUD";
     package_repository.pocket := "updates" |}.

End Fixture.

(** ** The constructor of the manager and further scenarios *)

(** [_DEFAULT_SOURCES_DIRECTORY] *)
Definition _DEFAULT_SOURCES_DIRECTORY : Path := "/etc/apt/sources.list.d".

(** [AptSourcesManager.__init__]: each directory is the one given, or its
    default when the argument is [None] (a [Path] is always true, so
    [or] falls through for [None] only).  [KEYRINGS_PATH] is the default
    of [apt_key_manager], which is not part of the sources at hand. *)
Definition __init__ (KEYRINGS_PATH : Path)
    (sources_list_d keyrings_dir : option Path) : AptSourcesManager :=
  {| _sources_list_d := default _DEFAULT_SOURCES_DIRECTORY sources_list_d;
     _keyrings_dir := default KEYRINGS_PATH keyrings_dir |}.

(** The text with every newline stored as carriage return and newline,
    as an editor with DOS line endings saves it. *)
Fixpoint crlf (s : string) : string :=
  match s with
  | EmptyString => EmptyString
  | String c rest =>
      if Ascii.eqb c Py.LF then String Py.CR (String Py.LF (crlf rest))
      else String c (crlf rest)
  end.

(** An optional list with the empty list taken for an absent one. *)
Definition absent_if_empty {A : Type} (o : option (list A))
    : option (list A) :=
  match o with
  | Some [] => None
  | _ => o
  end.

(** A Plain descriptor with every empty list, and an empty path, taken
    for an absent one. *)
Definition without_empty_fields (r : package_repository.PackageRepositoryApt)
    : package_repository.PackageRepositoryApt :=
  {| package_repository.architectures :=
       absent_if_empty (package_repository.architectures r);
     package_repository.components :=
       absent_if_empty (package_repository.components r);
     package_repository.formats :=
       absent_if_empty (package_repository.formats r);
     package_repository.key_id := package_repository.key_id r;
     package_repository.name := package_repository.name r;
     package_repository.path :=
       match package_repository.path r with
       | Some EmptyString => None
       | other => other
       end;
     package_repository.suites :=
       absent_if_empty (package_repository.suites r);
     package_repository.url := package_repository.url r |}.

(** The character [c] occurs in none of the values a stanza is rendered
    from. *)
Definition free_of (c : ascii) (host_architecture : string)
    (architectures components formats : option (list string))
    (suites : list string) (url : string) (signed_by : Path) : Prop :=
  (c ∉ list_ascii_of_string host_architecture)
  /\ (c ∉ list_ascii_of_string url)
  /\ (c ∉ list_ascii_of_string signed_by)
  /\ Forall (fun value => c ∉ list_ascii_of_string value)
       (suites ++ Py.items formats ++ Py.items components
        ++ Py.items architectures).

(** The number of newlines of a text. *)
Definition newlines (text : string) : nat :=
  count_occ ascii_dec (list_ascii_of_string text) Py.LF.

Module Scenario.

(** The keyword arguments of a record named [main-archive]. *)
Definition main_archive : SourceArgs := {|
  architectures := None;
  components := Some ["main"];
  formats := None;
  name := "main-archive";
  suites := ["jammy"];
  url := "http://archive.ubuntu.com/ubuntu";
  keyring_path := "/tmp/keyrings/craft-AAAAAAAA.gpg"
|}.



(** A descriptor with components and neither path nor suites. *)
Definition apt_components_only : package_repository.PackageRepositoryApt := {|
  package_repository.architectures := None;
  package_repository.components := Some ["main"];
  package_repository.formats := None;
  package_repository.key_id := "AAAAAAAAAAAAAAAAAAAAAAAAAAAAAAAAAAAAAAAA";
  package_repository.name := "http_test_url_ubuntu";
  package_repository.path := None;
  package_repository.suites := None;
  package_repository.url := "http://test.url/ubuntu"
|}.

(** A host where the Launchpad lookup fails. *)
Definition offline : Env := {|
  get_host_architecture := "FAKE-HOST-ARCH";
  codename := "FAKE-CODENAME";
  get_keyring_path := fun _ base_path => path_join base_path "craft-AAAAAAAA.gpg";
  get_launchpad_ppa_key_id := fun _ => Raise (ResolverError "network unreachable");
  release_compatible := fun _ _ _ => true;
  subprocess_succeeds := fun _ => true;
  UCA_KEY_ID := "391A9AA2147192839E9DB0315EDB1B62EC4926EA"
|}.

(** A host where the keyring is in place and a directory sits where the
    source file of [http_test_url_ubuntu] belongs. *)
Definition blocked : World := {|
  fs := {[ "/tmp/keyrings/craft-AAAAAAAA.gpg" := File "";
           "/tmp/sources.list.d/craft-http_test_url_ubuntu.sources" := Dir ]};
  trace := []
|}.

(** A host where the source file of [Fixture.apt_bare] is stored with DOS
    line endings. *)
Definition dos : World := {|
  fs := {[ "/tmp/keyrings/craft-AAAAAAAA.gpg" := File "";
           "/tmp/sources.list.d/craft-http_test_url_ubuntu.sources" :=
             File (crlf (rendered Fixture.env
                           {| architectures := None; components := None;
                              formats := None;
                              name := "http_test_url_ubuntu";
                              suites := ["/"];
                              url := "http://test.url/ubuntu";
                              keyring_path :=
                                "/tmp/keyrings/craft-AAAAAAAA.gpg" |})) ]};
  trace := []
|}.

End Scenario.

(** * Properties *)

(** ** Python primitives on concrete inputs *)

Example join_two : Py.join " " ["deb"; "deb-src"] = "deb deb-src".
Proof. reflexivity. Qed.

Example endswith_slash : Py.endswith "dir/subdir/" "/" = true.
Proof. reflexivity. Qed.

Example endswith_no_slash : Py.endswith "dir/subdir" "/" = false.
Proof. reflexivity. Qed.


(** ** Strings *)

Lemma string_app_cons (a : ascii) (s t : string) :
  String a s +:+ t = String a (s +:+ t).
Proof. reflexivity. Qed.

Lemma string_app_nil_l (s : string) : "" +:+ s = s.
Proof. reflexivity. Qed.

Lemma string_app_nil_r (s : string) : s +:+ "" = s.
Proof.
  induction s as [|a s IH]; [reflexivity|].
  by rewrite string_app_cons, IH.
Qed.

Lemma string_app_assoc (s t u : string) : (s +:+ t) +:+ u = s +:+ (t +:+ u).
Proof.
  induction s as [|a s IH]; [reflexivity|].
  rewrite !string_app_cons. by rewrite IH.
Qed.

Lemma endswith_refl (s : string) : Py.endswith s s = true.
Proof.
  destruct s as [|a s]; [reflexivity|].
  cbn [Py.endswith]. by rewrite String.eqb_refl.
Qed.

Lemma endswith_app (s suffix : string) : Py.endswith (s +:+ suffix) suffix = true.
Proof.
  induction s as [|a s IH]; [apply endswith_refl|].
  rewrite string_app_cons. cbn [Py.endswith]. rewrite IH.
  by destruct (String.eqb _ _).
Qed.

(** ** The deb-822 renderer *)

Lemma print_app (text buf rest : string) :
  Py.print text buf +:+ rest = buf +:+ text +:+ String Py.LF "" +:+ rest.
Proof. unfold Py.print. by rewrite !string_app_assoc. Qed.

Lemma construct_deb822_source_stanza (env : Env)
    (architectures components formats : option (list string))
    (suites : list string) (url : string) (signed_by : Path) :
  _construct_deb822_source env architectures components formats suites url
    signed_by
  = stanza_text (deb822_stanza (get_host_architecture env) architectures
                   components formats suites url signed_by).
Proof.
  unfold _construct_deb822_source, deb822_stanza, stanza_text, field_line.
  destruct formats as [[|fmt fmts]|], components as [[|comp comps]|],
    architectures as [[|arch archs]|];
    cbn [Py.truthy Py.items default foldr app fst snd];
    unfold Py.print; rewrite ?string_app_assoc, ?string_app_nil_l;
    reflexivity.
Qed.

(** ** The file synchronizer *)

Lemma source_file_name_code (record_name : string) :
  (if bool_decide (record_name ∉ ["default"; "default-security"])
   then "craft-" +:+ record_name else record_name) +:+ ".sources"
  = source_file_name record_name.
Proof.
  unfold source_file_name.
  destruct (String.eqb_spec record_name "default") as [->|Hd]; [reflexivity|].
  destruct (String.eqb_spec record_name "default-security") as [->|Hs];
    [reflexivity|].
  rewrite bool_decide_true; [reflexivity|].
  rewrite !not_elem_of_cons. repeat split; [done..|]. apply not_elem_of_nil.
Qed.

(** What one run of the synchronizer does, by the state of the keyring
    and of the target file. *)
Lemma install_sources_run (env : Env) (self : AptSourcesManager)
    (kw : SourceArgs) (w : World) :
  _install_sources env self kw w =
    match fs w !! keyring_path kw with
    | Some (File _) =>
        match fs w !! source_file self (name kw) with
        | Some (File content) =>
            if String.eqb (Py.universal_newlines content) (rendered env kw)
            then (Ok false, w)
            else (Ok true, written w (source_file self (name kw)) (rendered env kw))
        | Some Dir => (Raise (IsADirectoryError (source_file self (name kw))), w)
        | None =>
            (Ok true, written w (source_file self (name kw)) (rendered env kw))
        end
    | _ => (Raise (AptGPGKeyringError (keyring_path kw)), w)
    end.
Proof.
  unfold _install_sources, bind, is_file, exists_, read_text, write_text, ret,
    raise, source_file, written, rendered.
  rewrite source_file_name_code.
  destruct (fs w !! keyring_path kw) as [[?|]|]; try reflexivity.
  destruct (fs w !! path_join _ _) as [[stored|]|] eqn:Htarget;
    simpl; rewrite ?Htarget; simpl; rewrite ?Htarget; try reflexivity.
  destruct (String.eqb _ _); simpl; rewrite ?Htarget; reflexivity.
Qed.

(** A run of the synchronizer that returns leaves the target file in
    place, reading back as the rendered text, or has just written it. *)
Lemma install_sources_returns (env : Env) (self : AptSourcesManager)
    (kw : SourceArgs) (w w' : World) (changed : bool) :
  _install_sources env self kw w = (Ok changed, w') ->
  (exists content, fs w !! keyring_path kw = Some (File content))
  /\ changed = negb (installed w (source_file self (name kw)) (rendered env kw))
  /\ w' = (if changed
           then written w (source_file self (name kw)) (rendered env kw)
           else w).
Proof.
  rewrite install_sources_run. unfold installed.
  destruct (fs w !! keyring_path kw) as [[content|]|]; [|discriminate..].
  destruct (fs w !! source_file self (name kw)) as [[stored|]|];
    [destruct (String.eqb _ _)| |];
    intros [= <- <-]; eauto.
Qed.

(** Once the target file reads back as the rendered text, a run is a
    no-op, whatever else the trace holds. *)
Lemma install_sources_settled (env : Env) (self : AptSourcesManager)
    (kw : SourceArgs) (w : World) (content : string) :
  fs w !! keyring_path kw = Some (File content) ->
  installed w (source_file self (name kw)) (rendered env kw) = true ->
  _install_sources env self kw w = (Ok false, w).
Proof.
  intros Hkeyring Hinstalled. rewrite install_sources_run, Hkeyring.
  unfold installed in Hinstalled.
  destruct (fs w !! source_file self (name kw)) as [[stored|]|];
    [|discriminate..].
  by rewrite Hinstalled.
Qed.

(** ** The architecture registrar *)

Lemma add_architecture_run (env : Env) (architectures : list string)
    (w : World) :
  _add_architecture env architectures w =
    (match first_failure env architectures with
     | None => Ok tt
     | Some arch => Raise (CalledProcessError (dpkg_add_architecture arch))
     end,
     {| fs := fs w;
        trace := trace w ++ map (fun arch => SubprocessRun (dpkg_add_architecture arch))
                              (attempted env architectures) |}).
Proof.
  revert w. induction architectures as [|arch rest IH]; intros w.
  - destruct w as [files events]. cbn. by rewrite app_nil_r.
  - cbn [_add_architecture attempted]. unfold first_failure, bind, subprocess_run.
    cbn [List.find]. fold (dpkg_add_architecture arch).
    destruct (subprocess_succeeds env (dpkg_add_architecture arch)); cbn.
    + rewrite IH. cbn. unfold first_failure. by rewrite <- app_assoc.
    + reflexivity.
Qed.

Lemma attempted_all (env : Env) (architectures : list string) :
  Forall (fun arch => subprocess_succeeds env (dpkg_add_architecture arch) = true)
    architectures ->
  attempted env architectures = architectures
  /\ first_failure env architectures = None.
Proof.
  unfold first_failure.
  induction 1 as [|arch rest Hok _ [IHa IHf]]; [done|].
  cbn. rewrite Hok. cbn. by rewrite IHa, IHf.
Qed.

Lemma attempted_until (env : Env) (before after : list string) (arch : string) :
  Forall (fun arch => subprocess_succeeds env (dpkg_add_architecture arch) = true)
    before ->
  subprocess_succeeds env (dpkg_add_architecture arch) = false ->
  attempted env (before ++ arch :: after) = before ++ [arch]
  /\ first_failure env (before ++ arch :: after) = Some arch.
Proof.
  unfold first_failure. intros Hbefore Hfail.
  induction Hbefore as [|first rest Hok _ [IHa IHf]]; cbn.
  - by rewrite Hfail.
  - rewrite Hok. cbn. by rewrite IHa, IHf.
Qed.

Lemma subprocess_calls_app (events more : list Event) :
  subprocess_calls (events ++ more)
  = subprocess_calls events ++ subprocess_calls more.
Proof. apply omap_app. Qed.

Lemma subprocess_calls_registrations (architectures : list string) :
  subprocess_calls
    (map (fun arch => SubprocessRun (dpkg_add_architecture arch)) architectures)
  = map dpkg_add_architecture architectures.
Proof.
  induction architectures as [|arch rest IH]; [done|].
  cbn. by rewrite <- IH.
Qed.

(** ** The canonicalizers *)

(** The suite derivation of [_install_sources_apt] is the three-way rule
    of the specification. *)
Lemma install_sources_apt_record (env : Env) (self : AptSourcesManager)
    (r : package_repository.PackageRepositoryApt) (w : World) :
  _install_sources_apt env self r w =
    match canonical_record env self (package_repository.Apt r) with
    | Ok kw => _install_sources env self kw w
    | Raise e => (Raise e, w)
    end.
Proof.
  unfold _install_sources_apt, canonical_record, plain_suites.
  destruct r as [archs comps fmts key nm [[|c rest]|] [[|suite more]|] u];
    destruct comps as [[|comp comps]|]; try reflexivity;
    cbn -[Py.endswith]; unfold bind, ret;
    destruct (Py.endswith _ _); reflexivity.
Qed.

(** Every canonicalizer either stops with an error, the world untouched,
    or hands the canonical record to the synchronizer. *)
Lemma canonicalize_record (env : Env) (self : AptSourcesManager)
    (package_repo : package_repository.PackageRepository) (w : World) :
  canonicalize env self package_repo w =
    match canonical_record env self package_repo with
    | Ok kw => _install_sources env self kw w
    | Raise e => (Raise e, w)
    end.
Proof.
  destruct package_repo as [r|r|r|]; cbn [canonicalize].
  - apply install_sources_apt_record.
  - unfold _install_sources_ppa, canonical_record, bind, lift.
    destruct (apt_ppa.split_ppa_parts _) as [[owner nm]|e]; [|reflexivity].
    destruct (get_launchpad_ppa_key_id _ _) as [key|e]; reflexivity.
  - unfold _install_sources_uca, canonical_record, bind, lift.
    destruct (apt_uca.check_release_compatibility _ _ _ _) as [[]|e];
      reflexivity.
  - reflexivity.
Qed.

(** The orchestrator: the canonicalizer, then, for a Plain descriptor
    only, the registrar. *)
Lemma install_canonicalize (env : Env) (self : AptSourcesManager)
    (package_repo : package_repository.PackageRepository) (w : World) :
  install_package_repository_sources env self package_repo w =
    match package_repo with
    | package_repository.Apt r =>
        match canonicalize env self package_repo w with
        | (Ok changed, w') =>
            if changed && Py.truthy (package_repository.architectures r)
            then
              match _add_architecture env
                      (Py.items (package_repository.architectures r)) w' with
              | (Ok _, w'') => (Ok changed, w'')
              | (Raise e, w'') => (Raise e, w'')
              end
            else (Ok changed, w')
        | (Raise e, w') => (Raise e, w')
        end
    | _ => canonicalize env self package_repo w
    end.
Proof.
  destruct package_repo as [r|r|r|]; try reflexivity.
  cbn [install_package_repository_sources canonicalize]. unfold bind.
  destruct (_install_sources_apt env self r w) as [[changed|e] w'];
    [|reflexivity].
  destruct (changed && _); [|reflexivity].
  destruct (_add_architecture _ _ _) as [[[]|e] w'']; reflexivity.
Qed.

Lemma stanza_text_app (fields more : list (string * string)) :
  stanza_text (fields ++ more) = stanza_text fields +:+ stanza_text more.
Proof.
  induction fields as [|field fields IH]; [reflexivity|].
  cbn [app stanza_text foldr]. fold (stanza_text (fields ++ more)).
  fold (stanza_text fields). by rewrite IH, string_app_assoc.
Qed.

Lemma stanza_keys_deb822 (host : string)
    (architectures components formats : option (list string))
    (suites : list string) (url : string) (signed_by : Path) :
  stanza_keys (deb822_stanza host architectures components formats suites url
                 signed_by)
  = ["Types"; "URIs"; "Suites"]
    ++ (if Py.truthy components then ["Components"] else [])
    ++ ["Architectures"; "Signed-By"].
Proof. destruct components as [[|comp comps]|]; reflexivity. Qed.

Lemma stanza_has_components (host : string)
    (architectures components formats : option (list string))
    (suites : list string) (url : string) (signed_by : Path) :
  "Components" ∈ stanza_keys (deb822_stanza host architectures components
                                formats suites url signed_by)
  <-> components <> None /\ components <> Some [].
Proof.
  rewrite stanza_keys_deb822.
  destruct components as [[|comp comps]|]; cbn [Py.truthy app].
  - split; [intros Hin|intros [_ []]; reflexivity].
    repeat (apply elem_of_cons in Hin as [[=]|Hin]).
    by apply elem_of_nil in Hin.
  - split; [intros _; split; discriminate|intros _].
    rewrite !elem_of_cons. do 3 right. by left.
  - split; [intros Hin|intros [[] _]; reflexivity].
    repeat (apply elem_of_cons in Hin as [[=]|Hin]).
    by apply elem_of_nil in Hin.
Qed.

(** ** Rendering, naming and canonical records *)

(** C2. The deb-822 renderer emits the fields in the order Types, URIs,
    Suites, Components, Architectures, Signed-By, one [key: value] line
    each; every list is joined by single spaces on its line; the
    Components line is there exactly when the component list is neither
    absent nor empty; Types is [deb] when formats is unset;
    Architectures is the host architecture when unset; Signed-By is the
    keyring path; and the text ends with the Signed-By line and its one
    newline. *)
Theorem deb822_source_fields (env : Env)
    (architectures components formats : option (list string))
    (suites : list string) (url : string) (signed_by : Path) :
  let text :=
    _construct_deb822_source env architectures components formats suites url
      signed_by in
  let stanza :=
    deb822_stanza (get_host_architecture env) architectures components formats
      suites url signed_by in
  text = stanza_text stanza
  /\ stanza_keys stanza
     = ["Types"; "URIs"; "Suites"]
       ++ (if Py.truthy components then ["Components"] else [])
       ++ ["Architectures"; "Signed-By"]
  /\ ("Components" ∈ stanza_keys stanza
      <-> components <> None /\ components <> Some [])
  /\ (forall value, ("Types", value) ∈ stanza ->
        value = match formats with
                | None | Some [] => "deb"
                | Some fmts => Py.join " " fmts
                end)
  /\ (forall value, ("Suites", value) ∈ stanza -> value = Py.join " " suites)
  /\ (forall value, ("Components", value) ∈ stanza ->
        value = Py.join " " (Py.items components))
  /\ (forall value, ("Architectures", value) ∈ stanza ->
        value = match architectures with
                | None | Some [] => get_host_architecture env
                | Some archs => Py.join " " archs
                end)
  /\ (exists before,
        text = before +:+ "Signed-By: " +:+ signed_by +:+ String Py.LF "").
Proof.
  cbv zeta. split; [apply construct_deb822_source_stanza|].
  split; [apply stanza_keys_deb822|].
  split; [apply stanza_has_components|].
  repeat split.
  - intros value Hin. unfold deb822_stanza in Hin.
    destruct formats as [[|fmt fmts]|], components as [[|comp comps]|];
      cbn [app] in Hin;
      repeat (apply elem_of_cons in Hin as [[=]|Hin]); subst; try reflexivity;
      by apply elem_of_nil in Hin.
  - intros value Hin. unfold deb822_stanza in Hin.
    destruct components as [[|comp comps]|];
      cbn [app] in Hin;
      repeat (apply elem_of_cons in Hin as [[=]|Hin]); subst; try reflexivity;
      by apply elem_of_nil in Hin.
  - intros value Hin. unfold deb822_stanza in Hin.
    destruct components as [[|comp comps]|];
      cbn [app] in Hin;
      repeat (apply elem_of_cons in Hin as [[=]|Hin]); subst; try reflexivity;
      by apply elem_of_nil in Hin.
  - intros value Hin. unfold deb822_stanza in Hin.
    destruct architectures as [[|arch archs]|], components as [[|comp comps]|];
      cbn [app] in Hin;
      repeat (apply elem_of_cons in Hin as [[=]|Hin]); subst; try reflexivity;
      by apply elem_of_nil in Hin.
  - rewrite construct_deb822_source_stanza. unfold deb822_stanza.
    set (arch_text := match architectures with
                      | Some (arch :: more) => Py.join " " (arch :: more)
                      | _ => get_host_architecture env
                      end).
    match goal with
    | |- context [?head ++ ?comps ++ [("Architectures", arch_text); ?last]] =>
        exists (stanza_text (head ++ comps ++ [("Architectures", arch_text)]))
    end.
    rewrite !stanza_text_app. cbn [stanza_text foldr]. unfold field_line.
    cbn [fst snd]. rewrite !string_app_assoc, string_app_nil_r. reflexivity.
Qed.

Lemma deb822_source_fields_witness :
  _construct_deb822_source Fixture.env (Some ["amd64"; "arm64"])
    (Some ["test-component"]) (Some ["deb"; "deb-src"])
    ["test-suite1"; "test-suite2"] "http://test.url/ubuntu"
    "/tmp/keyrings/craft-AAAAAAAA.gpg"
  = stanza_text [("Types", "deb deb-src");
                 ("URIs", "http://test.url/ubuntu");
                 ("Suites", "test-suite1 test-suite2");
                 ("Components", "test-component");
                 ("Architectures", "amd64 arm64");
                 ("Signed-By", "/tmp/keyrings/craft-AAAAAAAA.gpg")].
Proof.
  exact (proj1 (deb822_source_fields Fixture.env (Some ["amd64"; "arm64"])
                  (Some ["test-component"]) (Some ["deb"; "deb-src"])
                  ["test-suite1"; "test-suite2"] "http://test.url/ubuntu"
                  "/tmp/keyrings/craft-AAAAAAAA.gpg")).
Defined.

(** C5. The synchronizer places a record's file in the configured sources
    directory under the name derived from the record name: [default] and
    [default-security] pass through, every other name gains the prefix
    [craft-], and [.sources] is appended.  A run that returns has either
    written the rendered text to exactly that file or found it there. *)
Theorem source_file_placement (env : Env) (self : AptSourcesManager)
    (kw : SourceArgs) (w w' : World) (changed : bool) :
  _install_sources env self kw w = (Ok changed, w') ->
  let file_name :=
    (if decide (name kw = "default" \/ name kw = "default-security")
     then name kw else "craft-" +:+ name kw) +:+ ".sources" in
  let config_path := _sources_list_d self +:+ "/" +:+ file_name in
  (changed = true /\ w' = written w config_path (rendered env kw))
  \/ (changed = false /\ w' = w
      /\ installed w config_path (rendered env kw) = true).
Proof.
  intros Hrun. cbv zeta.
  assert ((if decide (name kw = "default" \/ name kw = "default-security")
           then name kw else "craft-" +:+ name kw) +:+ ".sources"
          = source_file_name (name kw)) as ->.
  { unfold source_file_name.
    destruct (String.eqb_spec (name kw) "default") as [Hd|Hd].
    { rewrite decide_True; [reflexivity|by left]. }
    destruct (String.eqb_spec (name kw) "default-security") as [Hs|Hs].
    { rewrite decide_True; [reflexivity|by right]. }
    rewrite decide_False; [reflexivity|]. by intros [?|?]. }
  apply install_sources_returns in Hrun as (_ & Hchanged & ->).
  fold (path_join (_sources_list_d self) (source_file_name (name kw))).
  fold (source_file self (name kw)).
  destruct changed; [by left|right].
  repeat split. by destruct (installed _ _ _).
Qed.

Lemma source_file_placement_witness :
  let kw := {| architectures := None; components := Some ["main"];
               formats := Some ["deb"]; name := "default";
               suites := ["jammy"];
               url := "http://archive.ubuntu.com/ubuntu";
               keyring_path := "/tmp/keyrings/craft-AAAAAAAA.gpg" |} in
  let w' := written Fixture.fresh "/tmp/sources.list.d/default.sources"
              (rendered Fixture.env kw) in
  _install_sources Fixture.env Fixture.mgr kw Fixture.fresh = (Ok true, w')
  /\ ((true = true
       /\ w' = written Fixture.fresh "/tmp/sources.list.d/default.sources"
                 (rendered Fixture.env kw))
      \/ (true = false /\ w' = Fixture.fresh
          /\ installed Fixture.fresh "/tmp/sources.list.d/default.sources"
               (rendered Fixture.env kw) = true)).
Proof.
  intros kw w'.
  assert (_install_sources Fixture.env Fixture.mgr kw Fixture.fresh
          = (Ok true, w')) as Hrun by (vm_compute; reflexivity).
  split; [exact Hrun|].
  exact (source_file_placement Fixture.env Fixture.mgr kw Fixture.fresh w' true
           Hrun).
Defined.

(** C3, as the code has it.  For a Plain descriptor whose path is set to
    a non-empty string, the canonical record's suite list is exactly the
    path with a trailing slash enforced (a slash appended only when the
    path does not end with one); the descriptor's component list is
    passed on as it is, so the Components line is absent exactly when
    that list is absent or empty. *)
Theorem path_suite_rule (env : Env) (self : AptSourcesManager)
    (r : package_repository.PackageRepositoryApt) (path : string) :
  package_repository.path r = Some path ->
  path <> "" ->
  let suite := if Py.endswith path "/" then path else path +:+ "/" in
  let kw :=
    {| architectures := package_repository.architectures r;
       components := package_repository.components r;
       formats := package_repository.formats r;
       name := package_repository.name r;
       suites := [suite];
       url := package_repository.url r;
       keyring_path :=
         get_keyring_path env (package_repository.key_id r)
           (_keyrings_dir self) |} in
  (forall w, _install_sources_apt env self r w = _install_sources env self kw w)
  /\ Py.endswith suite "/" = true
  /\ rendered env kw
     = stanza_text
         (deb822_stanza (get_host_architecture env)
            (package_repository.architectures r)
            (package_repository.components r)
            (package_repository.formats r) [suite]
            (package_repository.url r)
            (get_keyring_path env (package_repository.key_id r)
               (_keyrings_dir self)))
  /\ ("Components" ∈ stanza_keys
        (deb822_stanza (get_host_architecture env)
           (package_repository.architectures r)
           (package_repository.components r)
           (package_repository.formats r) [suite]
           (package_repository.url r)
           (get_keyring_path env (package_repository.key_id r)
              (_keyrings_dir self)))
      <-> package_repository.components r <> None
          /\ package_repository.components r <> Some []).
Proof.
  intros Hpath Hnonempty. cbv zeta. repeat apply conj.
  - intros w. rewrite install_sources_apt_record.
    unfold canonical_record, plain_suites. rewrite Hpath.
    destruct path as [|c rest]; [done|]. reflexivity.
  - destruct (Py.endswith path "/") eqn:Hends; [exact Hends|].
    apply endswith_app.
  - apply construct_deb822_source_stanza.
  - by apply stanza_has_components.
  - by apply stanza_has_components.
Qed.

Lemma path_suite_rule_witness :
  _install_sources_apt Fixture.env Fixture.mgr Fixture.apt_path Fixture.fresh
  = _install_sources Fixture.env Fixture.mgr
      {| architectures := Some ["amd64"; "arm64"];
         components := None;
         formats := Some ["deb"; "deb-src"];
         name := "http_test_url_ubuntu";
         suites := ["dir/subdir/"];
         url := "http://test.url/ubuntu";
         keyring_path := "/tmp/keyrings/craft-AAAAAAAA.gpg" |} Fixture.fresh.
Proof.
  exact (proj1 (path_suite_rule Fixture.env Fixture.mgr Fixture.apt_path
                  "dir/subdir" eq_refl ltac:(discriminate)) Fixture.fresh).
Defined.

(** C3, as stated, fails: a Plain descriptor that carries both a path and
    a component list gets its Components line. *)
Lemma path_with_components_renders_components :
  install_package_repository_sources Fixture.env Fixture.mgr
    (package_repository.Apt Fixture.apt_path_components) Fixture.fresh
  = (Ok true,
     written Fixture.fresh
       "/tmp/sources.list.d/craft-http_test_url_ubuntu.sources"
       (stanza_text [("Types", "deb");
                     ("URIs", "http://test.url/ubuntu");
                     ("Suites", "dir/subdir/");
                     ("Components", "main");
                     ("Architectures", "FAKE-HOST-ARCH");
                     ("Signed-By", "/tmp/keyrings/craft-AAAAAAAA.gpg")])).
Proof. vm_compute. reflexivity. Qed.

(** C4. A Plain descriptor with no path, no components and no suites
    (each absent or empty) has the canonical suite list [["/"]], and its
    rendered text has no Components field. *)
Theorem bare_repository_rule (env : Env) (self : AptSourcesManager)
    (r : package_repository.PackageRepositoryApt) :
  Py.truthy_str (package_repository.path r) = false ->
  Py.truthy (package_repository.components r) = false ->
  Py.truthy (package_repository.suites r) = false ->
  let keyring :=
    get_keyring_path env (package_repository.key_id r) (_keyrings_dir self) in
  let kw :=
    {| architectures := package_repository.architectures r;
       components := package_repository.components r;
       formats := package_repository.formats r;
       name := package_repository.name r;
       suites := ["/"];
       url := package_repository.url r;
       keyring_path := keyring |} in
  (forall w, _install_sources_apt env self r w = _install_sources env self kw w)
  /\ rendered env kw
     = stanza_text
         [("Types", match package_repository.formats r with
                    | None | Some [] => "deb"
                    | Some fmts => Py.join " " fmts
                    end);
          ("URIs", package_repository.url r);
          ("Suites", "/");
          ("Architectures", match package_repository.architectures r with
                            | None | Some [] => get_host_architecture env
                            | Some archs => Py.join " " archs
                            end);
          ("Signed-By", keyring)].
Proof.
  intros Hpath Hcomponents Hsuites. cbv zeta. split.
  - intros w. rewrite install_sources_apt_record.
    unfold canonical_record, plain_suites.
    destruct (package_repository.path r) as [[|c rest]|]; try discriminate;
      destruct (package_repository.suites r) as [[|suite more]|];
      try discriminate;
      destruct (package_repository.components r) as [[|comp comps]|];
      try discriminate; reflexivity.
  - unfold rendered. cbn [architectures components formats suites url keyring_path].
    rewrite construct_deb822_source_stanza. unfold deb822_stanza.
    destruct (package_repository.components r) as [[|comp comps]|];
      try discriminate;
      destruct (package_repository.formats r) as [[|fmt fmts]|];
      destruct (package_repository.architectures r) as [[|arch archs]|];
      reflexivity.
Qed.

Lemma bare_repository_rule_witness :
  _install_sources_apt Fixture.env Fixture.mgr Fixture.apt_bare Fixture.fresh
  = _install_sources Fixture.env Fixture.mgr
      {| architectures := None; components := None; formats := None;
         name := "http_test_url_ubuntu"; suites := ["/"];
         url := "http://test.url/ubuntu";
         keyring_path := "/tmp/keyrings/craft-AAAAAAAA.gpg" |} Fixture.fresh
  /\ rendered Fixture.env
       {| architectures := None; components := None; formats := None;
          name := "http_test_url_ubuntu"; suites := ["/"];
          url := "http://test.url/ubuntu";
          keyring_path := "/tmp/keyrings/craft-AAAAAAAA.gpg" |}
     = stanza_text [("Types", "deb");
                    ("URIs", "http://test.url/ubuntu");
                    ("Suites", "/");
                    ("Architectures", "FAKE-HOST-ARCH");
                    ("Signed-By", "/tmp/keyrings/craft-AAAAAAAA.gpg")].
Proof.
  destruct (bare_repository_rule Fixture.env Fixture.mgr Fixture.apt_bare
              eq_refl eq_refl eq_refl) as [Hrecord Htext].
  split; [exact (Hrecord Fixture.fresh)|exact Htext].
Defined.

(** C6. For a PPA descriptor that splits into owner and name, with the
    Launchpad lookup answering for the original PPA string, the
    canonical record has formats [["deb"]], components [["main"]], the
    host codename as its only suite, the Launchpad archive URL of
    owner/name, the record name [ppa-<owner>_<name>] and the keyring
    resolved from the looked-up key. *)
Theorem ppa_canonical_form (env : Env) (self : AptSourcesManager)
    (r : package_repository.PackageRepositoryAptPPA)
    (owner ppa_name key_id : string) :
  apt_ppa.split_ppa_parts (package_repository.ppa r) = Ok (owner, ppa_name) ->
  get_launchpad_ppa_key_id env (package_repository.ppa r) = Ok key_id ->
  let kw :=
    {| architectures := None;
       components := Some ["main"];
       formats := Some ["deb"];
       name := "ppa-" +:+ owner +:+ "_" +:+ ppa_name;
       suites := [codename env];
       url := "http://ppa.launchpad.net/" +:+ owner +:+ "/" +:+ ppa_name
              +:+ "/ubuntu";
       keyring_path := get_keyring_path env key_id (_keyrings_dir self) |} in
  (forall w,
     install_package_repository_sources env self (package_repository.AptPPA r) w
     = _install_sources env self kw w)
  /\ rendered env kw
     = stanza_text
         [("Types", "deb");
          ("URIs", "http://ppa.launchpad.net/" +:+ owner +:+ "/" +:+ ppa_name
                   +:+ "/ubuntu");
          ("Suites", codename env);
          ("Components", "main");
          ("Architectures", get_host_architecture env);
          ("Signed-By", get_keyring_path env key_id (_keyrings_dir self))].
Proof.
  intros Hsplit Hkey. cbv zeta. split.
  - intros w. cbn [install_package_repository_sources].
    unfold _install_sources_ppa, bind, lift. by rewrite Hsplit, Hkey.
  - unfold rendered. apply construct_deb822_source_stanza.
Qed.

Lemma ppa_canonical_form_witness :
  install_package_repository_sources Fixture.env Fixture.mgr
    (package_repository.AptPPA Fixture.ppa) Fixture.fresh
  = _install_sources Fixture.env Fixture.mgr
      {| architectures := None; components := Some ["main"];
         formats := Some ["deb"]; name := "ppa-test_ppa";
         suites := ["FAKE-CODENAME"];
         url := "http://ppa.launchpad.net/test/ppa/ubuntu";
         keyring_path := "/tmp/keyrings/craft-AAAAAAAA.gpg" |} Fixture.fresh.
Proof.
  exact (proj1 (ppa_canonical_form Fixture.env Fixture.mgr Fixture.ppa
                  "test" "ppa" "FAKE-PPA-SIGNING-KEY" eq_refl eq_refl)
           Fixture.fresh).
Defined.

(** C7. For a Cloud descriptor the release compatibility is settled
    first: an incompatible combination raises the cloud-archive error
    naming the cloud, the pocket and the host codename, whatever the
    state of the keyring, and the host is left as it was; a compatible
    one hands the synchronizer formats [["deb"]], components [["main"]],
    the single suite [<codename>-<pocket>/<cloud>], the cloud-archive
    URL, the keyring of the cloud-archive key and the record name
    [cloud-<cloud>]. *)
Theorem cloud_canonical_form (env : Env) (self : AptSourcesManager)
    (r : package_repository.PackageRepositoryAptUCA) :
  let cloud := package_repository.cloud r in
  let pocket := package_repository.pocket r in
  let kw :=
    {| architectures := None;
       components := Some ["main"];
       formats := Some ["deb"];
       name := "cloud-" +:+ cloud;
       suites := [codename env +:+ "-" +:+ pocket +:+ "/" +:+ cloud];
       url := "http://ubuntu-cloud.archive.canonical.com/ubuntu";
       keyring_path :=
         get_keyring_path env (UCA_KEY_ID env) (_keyrings_dir self) |} in
  (release_compatible env (codename env) cloud pocket = false ->
   forall w,
     install_package_repository_sources env self (package_repository.AptUCA r) w
     = (Raise (AptUCAInstallError cloud pocket (codename env)), w))
  /\ (release_compatible env (codename env) cloud pocket = true ->
      forall w,
        install_package_repository_sources env self
          (package_repository.AptUCA r) w
        = _install_sources env self kw w)
  /\ rendered env kw
     = stanza_text
         [("Types", "deb");
          ("URIs", "http://ubuntu-cloud.archive.canonical.com/ubuntu");
          ("Suites", codename env +:+ "-" +:+ pocket +:+ "/" +:+ cloud);
          ("Components", "main");
          ("Architectures", get_host_architecture env);
          ("Signed-By",
           get_keyring_path env (UCA_KEY_ID env) (_keyrings_dir self))].
Proof.
  cbv zeta. repeat apply conj.
  - intros Hcompatible w. cbn [install_package_repository_sources].
    unfold _install_sources_uca, bind, lift,
      apt_uca.check_release_compatibility.
    by rewrite Hcompatible.
  - intros Hcompatible w. cbn [install_package_repository_sources].
    unfold _install_sources_uca, bind, lift,
      apt_uca.check_release_compatibility.
    by rewrite Hcompatible.
  - unfold rendered. apply construct_deb822_source_stanza.
Qed.

Lemma cloud_canonical_form_witness :
  install_package_repository_sources Fixture.env Fixture.mgr
    (package_repository.AptUCA Fixture.uca_invalid) Fixture.empty
  = (Raise (AptUCAInstallError "FAKE-CLOUD" "updates" "FAKE-CODENAME"),
     Fixture.empty)
  /\ install_package_repository_sources Fixture.env Fixture.mgr
       (package_repository.AptUCA Fixture.uca) Fixture.fresh
     = _install_sources Fixture.env Fixture.mgr
         {| architectures := None; components := Some ["main"];
            formats := Some ["deb"]; name := "cloud-fake-cloud";
            suites := ["FAKE-CODENAME-updates/fake-cloud"];
            url := "http://ubuntu-cloud.archive.canonical.com/ubuntu";
            keyring_path := "/tmp/keyrings/craft-AAAAAAAA.gpg" |}
         Fixture.fresh.
Proof.
  split.
  - exact (proj1 (cloud_canonical_form Fixture.env Fixture.mgr
                    Fixture.uca_invalid) eq_refl Fixture.empty).
  - exact (proj1 (proj2 (cloud_canonical_form Fixture.env Fixture.mgr
                           Fixture.uca)) eq_refl Fixture.fresh).
Defined.

(** ** Errors *)

Lemma split_at_slash_none (s : string) :
  apt_ppa.split_at_slash s = None <-> "/"%char ∉ list_ascii_of_string s.
Proof.
  induction s as [|c rest IH]; cbn [apt_ppa.split_at_slash list_ascii_of_string].
  - split; [intros _; apply not_elem_of_nil|done].
  - rewrite not_elem_of_cons.
    destruct (Ascii.eqb_spec c "/") as [->|Hc].
    + split; [discriminate|intros [[] _]; reflexivity].
    + destruct (apt_ppa.split_at_slash rest) as [[before after]|].
      * split; [discriminate|]. intros [_ Hrest]. by apply IH in Hrest.
      * split; [|done]. intros _. split; [congruence|]. by apply IH.
Qed.

(** An error of the canonicalizer or of the synchronizer is the outcome
    of the whole installation, reached with the world as it was. *)
Lemma install_raises (env : Env) (self : AptSourcesManager)
    (package_repo : package_repository.PackageRepository) (w : World)
    (e : Exception) :
  canonicalize env self package_repo w = (Raise e, w) ->
  install_package_repository_sources env self package_repo w = (Raise e, w).
Proof.
  intros Hraise. rewrite install_canonicalize.
  destruct package_repo; by rewrite ?Hraise.
Qed.

(** C8. A keyring path that is not an existing regular file makes the
    synchronizer, and so the installation of any descriptor whose
    canonical record carries it, raise the keyring-missing error with
    that path; a PPA string without a slash makes the installation raise
    the PPA-format error with the original string.  Both times the host
    is left as it was: no file is written, no command is run. *)
Theorem errors_come_before_the_write (env : Env) (self : AptSourcesManager) :
  (forall kw w,
     (forall content, fs w !! keyring_path kw <> Some (File content)) ->
     _install_sources env self kw w
     = (Raise (AptGPGKeyringError (keyring_path kw)), w))
  /\ (forall package_repo kw w,
        canonical_record env self package_repo = Ok kw ->
        (forall content, fs w !! keyring_path kw <> Some (File content)) ->
        install_package_repository_sources env self package_repo w
        = (Raise (AptGPGKeyringError (keyring_path kw)), w))
  /\ (forall r w,
        "/"%char ∉ list_ascii_of_string (package_repository.ppa r) ->
        install_package_repository_sources env self
          (package_repository.AptPPA r) w
        = (Raise (AptPPAInstallError (package_repository.ppa r)
                    "invalid PPA format"), w)).
Proof.
  assert (forall kw w,
            (forall content, fs w !! keyring_path kw <> Some (File content)) ->
            _install_sources env self kw w
            = (Raise (AptGPGKeyringError (keyring_path kw)), w)) as Hkeyring.
  { intros kw w Hmissing. rewrite install_sources_run.
    destruct (fs w !! keyring_path kw) as [[content|]|]; try reflexivity.
    by destruct (Hmissing content). }
  repeat apply conj.
  - exact Hkeyring.
  - intros package_repo kw w Hrecord Hmissing. apply install_raises.
    rewrite canonicalize_record, Hrecord. by apply Hkeyring.
  - intros r w Hslash. apply split_at_slash_none in Hslash.
    cbn [install_package_repository_sources].
    unfold _install_sources_ppa, bind, lift, apt_ppa.split_ppa_parts.
    by rewrite Hslash.
Qed.

Lemma errors_come_before_the_write_witness :
  install_package_repository_sources Fixture.env Fixture.mgr
    (package_repository.Apt Fixture.apt_suites) Fixture.empty
  = (Raise (AptGPGKeyringError "/tmp/keyrings/craft-AAAAAAAA.gpg"),
     Fixture.empty)
  /\ install_package_repository_sources Fixture.env Fixture.mgr
       (package_repository.AptPPA Fixture.ppa_missing_slash) Fixture.fresh
     = (Raise (AptPPAInstallError "ppa-missing-slash" "invalid PPA format"),
        Fixture.fresh).
Proof.
  split.
  - refine (proj1 (proj2 (errors_come_before_the_write Fixture.env Fixture.mgr))
              (package_repository.Apt Fixture.apt_suites) _ Fixture.empty
              eq_refl _).
    intros content. cbn. rewrite lookup_empty. discriminate.
  - refine (proj2 (proj2 (errors_come_before_the_write Fixture.env Fixture.mgr))
              Fixture.ppa_missing_slash Fixture.fresh _).
    apply split_at_slash_none. reflexivity.
Defined.

(** ** Registration *)

(** The canonicalizers and the synchronizer write at most one file and
    run no command. *)
Lemma canonicalize_effect (env : Env) (self : AptSourcesManager)
    (package_repo : package_repository.PackageRepository) (w w' : World)
    (result : Result bool) :
  canonicalize env self package_repo w = (result, w') ->
  (result <> Ok true /\ w' = w)
  \/ (exists kw, canonical_record env self package_repo = Ok kw
                 /\ result = Ok true
                 /\ w' = written w (source_file self (name kw)) (rendered env kw)).
Proof.
  rewrite canonicalize_record.
  destruct (canonical_record env self package_repo) as [kw|e].
  - rewrite install_sources_run.
    destruct (fs w !! keyring_path kw) as [[content|]|];
      [|intros [= <- <-]; by left..].
    destruct (fs w !! source_file self (name kw)) as [[stored|]|];
      [destruct (String.eqb _ _)| |]; intros [= <- <-];
      first [by left|right; by exists kw].
  - intros [= <- <-]. by left.
Qed.

Lemma subprocess_calls_written (w : World) (p : Path) (data : string) :
  subprocess_calls (trace (written w p data)) = subprocess_calls (trace w).
Proof.
  unfold written. cbn [trace]. rewrite subprocess_calls_app. cbn.
  apply app_nil_r.
Qed.

Lemma canonicalize_runs_no_command (env : Env) (self : AptSourcesManager)
    (package_repo : package_repository.PackageRepository) (w w' : World)
    (result : Result bool) :
  canonicalize env self package_repo w = (result, w') ->
  subprocess_calls (trace w') = subprocess_calls (trace w).
Proof.
  intros [[_ ->]|(kw & _ & _ & ->)]%canonicalize_effect; [reflexivity|].
  apply subprocess_calls_written.
Qed.

(** What the orchestrator does with a Plain descriptor once the
    synchronization step has returned. *)
Lemma install_apt_run (env : Env) (self : AptSourcesManager)
    (r : package_repository.PackageRepositoryApt) (w : World) :
  install_package_repository_sources env self (package_repository.Apt r) w =
    match _install_sources_apt env self r w with
    | (Ok changed, w1) =>
        if changed && Py.truthy (package_repository.architectures r)
        then
          (match first_failure env
                   (Py.items (package_repository.architectures r)) with
           | None => Ok changed
           | Some arch =>
               Raise (CalledProcessError (dpkg_add_architecture arch))
           end,
           {| fs := fs w1;
              trace :=
                trace w1
                ++ map (fun arch => SubprocessRun (dpkg_add_architecture arch))
                     (attempted env
                        (Py.items (package_repository.architectures r))) |})
        else (Ok changed, w1)
    | (Raise e, w1) => (Raise e, w1)
    end.
Proof.
  rewrite install_canonicalize. cbn [canonicalize].
  destruct (_install_sources_apt env self r w) as [[changed|e] w1];
    [|reflexivity].
  destruct (changed && _); [|reflexivity].
  rewrite add_architecture_run. by destruct (first_failure _ _).
Qed.

(** C9. For a Plain descriptor the registration command is run if and
    only if the synchronization step reported a change and the descriptor
    declares a non-empty architecture list; it is then run once per
    declared architecture, in list order, up to and including the first
    one that fails, whose failure is the outcome of the installation;
    PPA and Cloud descriptors run no command at all. *)
Theorem architecture_registration (env : Env) (self : AptSourcesManager) :
  (forall r w result w',
     install_package_repository_sources env self (package_repository.Apt r) w
     = (result, w') ->
     let declared := package_repository.architectures r in
     subprocess_calls (trace w')
     = subprocess_calls (trace w)
       ++ match _install_sources_apt env self r w with
          | (Ok true, _) =>
              if Py.truthy declared
              then map dpkg_add_architecture (attempted env (Py.items declared))
              else []
          | _ => []
          end)
  /\ (forall r w w1,
        _install_sources_apt env self r w = (Ok true, w1) ->
        Py.truthy (package_repository.architectures r) = true ->
        install_package_repository_sources env self (package_repository.Apt r) w
        = (match first_failure env
                   (Py.items (package_repository.architectures r)) with
           | None => Ok true
           | Some arch =>
               Raise (CalledProcessError (dpkg_add_architecture arch))
           end,
           {| fs := fs w1;
              trace :=
                trace w1
                ++ map (fun arch => SubprocessRun (dpkg_add_architecture arch))
                     (attempted env
                        (Py.items (package_repository.architectures r))) |}))
  /\ (forall declared : option (list string),
        Py.truthy declared = true ->
        exists arch rest, attempted env (Py.items declared) = arch :: rest)
  /\ (forall declared,
        Forall (fun arch =>
                  subprocess_succeeds env (dpkg_add_architecture arch) = true)
          declared ->
        attempted env declared = declared
        /\ first_failure env declared = None)
  /\ (forall before arch after,
        Forall (fun arch =>
                  subprocess_succeeds env (dpkg_add_architecture arch) = true)
          before ->
        subprocess_succeeds env (dpkg_add_architecture arch) = false ->
        attempted env (before ++ arch :: after) = before ++ [arch]
        /\ first_failure env (before ++ arch :: after) = Some arch)
  /\ (forall r w result w',
        install_package_repository_sources env self
          (package_repository.AptPPA r) w = (result, w') ->
        subprocess_calls (trace w') = subprocess_calls (trace w))
  /\ (forall r w result w',
        install_package_repository_sources env self
          (package_repository.AptUCA r) w = (result, w') ->
        subprocess_calls (trace w') = subprocess_calls (trace w)).
Proof.
  repeat apply conj.
  - intros r w result w'. rewrite install_apt_run. cbv zeta.
    destruct (_install_sources_apt env self r w) as [[changed|e] w1] eqn:Hsync.
    + apply (canonicalize_runs_no_command env self (package_repository.Apt r))
        in Hsync as <-.
      destruct changed, (Py.truthy (package_repository.architectures r));
        cbn [andb]; intros [= <- <-]; cbn [trace];
        rewrite ?subprocess_calls_app, ?subprocess_calls_registrations,
          ?app_nil_r; reflexivity.
    + apply (canonicalize_runs_no_command env self (package_repository.Apt r))
        in Hsync as <-.
      intros [= <- <-]. by rewrite app_nil_r.
  - intros r w w1 Hsync Hdeclared. by rewrite install_apt_run, Hsync, Hdeclared.
  - intros [[|arch rest]|] Hdeclared; try discriminate.
    change (Py.items (Some (arch :: rest))) with (arch :: rest).
    cbn [attempted].
    destruct (subprocess_succeeds env (dpkg_add_architecture arch)); eauto.
  - apply attempted_all.
  - intros before arch after. apply attempted_until.
  - intros r w result w' Hrun.
    by apply (canonicalize_runs_no_command env self
                (package_repository.AptPPA r)) in Hrun.
  - intros r w result w' Hrun.
    by apply (canonicalize_runs_no_command env self
                (package_repository.AptUCA r)) in Hrun.
Qed.

Lemma architecture_registration_witness :
  let first_run :=
    install_package_repository_sources Fixture.env Fixture.mgr
      (package_repository.Apt Fixture.apt_suites) Fixture.fresh in
  let second_run :=
    install_package_repository_sources Fixture.env Fixture.mgr
      (package_repository.Apt Fixture.apt_suites) (snd first_run) in
  subprocess_calls (trace (snd first_run))
  = [["dpkg"; "--add-architecture"; "amd64"];
     ["dpkg"; "--add-architecture"; "arm64"]]
  /\ subprocess_calls (trace (snd second_run))
     = subprocess_calls (trace (snd first_run)) ++ [].
Proof.
  split.
  - exact (proj1 (architecture_registration Fixture.env Fixture.mgr)
             Fixture.apt_suites Fixture.fresh _ _ (surjective_pairing _)).
  - exact (proj1 (architecture_registration Fixture.env Fixture.mgr)
             Fixture.apt_suites _ _ _ (surjective_pairing _)).
Defined.

(** C10. When the synchronization step of a Plain descriptor with
    declared architectures reports a change, the source file is written
    before the first registration command is run, and nothing is undone
    afterwards: if the command fails for one architecture, the
    installation ends with that failure, the file is on disk with its
    new content, and the commands of the earlier architectures have been
    run. *)
Theorem file_written_before_registration (env : Env)
    (self : AptSourcesManager) (r : package_repository.PackageRepositoryApt)
    (w w1 : World) :
  Py.truthy (package_repository.architectures r) = true ->
  _install_sources_apt env self r w = (Ok true, w1) ->
  exists kw,
    let config_path := source_file self (name kw) in
    let config := rendered env kw in
    let declared := Py.items (package_repository.architectures r) in
    canonical_record env self (package_repository.Apt r) = Ok kw
    /\ w1 = written w config_path config
    /\ forall result w2,
         install_package_repository_sources env self
           (package_repository.Apt r) w = (result, w2) ->
         trace w2
         = trace w
           ++ WriteText config_path config
              :: map (fun arch => SubprocessRun (dpkg_add_architecture arch))
                   (attempted env declared)
         /\ fs w2 = <[config_path := File config]> (fs w)
         /\ fs w2 !! config_path = Some (File config)
         /\ forall before arch after,
              declared = before ++ arch :: after ->
              Forall (fun arch =>
                        subprocess_succeeds env (dpkg_add_architecture arch)
                        = true) before ->
              subprocess_succeeds env (dpkg_add_architecture arch) = false ->
              result = Raise (CalledProcessError (dpkg_add_architecture arch))
              /\ trace w2
                 = trace w
                   ++ WriteText config_path config
                      :: map (fun arch =>
                                SubprocessRun (dpkg_add_architecture arch))
                           (before ++ [arch]).
Proof.
  intros Hdeclared Hsync.
  pose proof Hsync as Heffect.
  apply (canonicalize_effect env self (package_repository.Apt r)) in Heffect
    as [[Hresult _]|(kw & Hrecord & _ & Hw1)]; [done|].
  exists kw. cbv zeta. repeat apply conj; [exact Hrecord|exact Hw1|].
  intros result w2. rewrite install_apt_run, Hsync, Hdeclared. cbn [andb].
  intros [= <- <-]. cbn [trace fs]. subst w1. cbn [trace fs written].
  repeat apply conj.
  - by rewrite <- app_assoc.
  - reflexivity.
  - apply lookup_insert_eq.
  - intros before arch after -> Hbefore Hfails.
    destruct (attempted_until env before after arch Hbefore Hfails) as [-> ->].
    split; [reflexivity|]. by rewrite <- app_assoc.
Qed.

Lemma file_written_before_registration_witness :
  let config_path := "/tmp/sources.list.d/craft-http_test_url_ubuntu.sources" in
  let config :=
    stanza_text [("Types", "deb");
                 ("URIs", "http://test.url/ubuntu");
                 ("Suites", "jammy");
                 ("Components", "main");
                 ("Architectures", "amd64 riscv64 arm64");
                 ("Signed-By", "/tmp/keyrings/craft-AAAAAAAA.gpg")] in
  install_package_repository_sources Fixture.env Fixture.mgr
    (package_repository.Apt Fixture.apt_riscv) Fixture.fresh
  = (Raise (CalledProcessError ["dpkg"; "--add-architecture"; "riscv64"]),
     {| fs := <[config_path := File config]> (fs Fixture.fresh);
        trace := [WriteText config_path config;
                  SubprocessRun ["dpkg"; "--add-architecture"; "amd64"];
                  SubprocessRun ["dpkg"; "--add-architecture"; "riscv64"]] |}).
Proof.
  cbv zeta.
  set (run := install_package_repository_sources Fixture.env Fixture.mgr
                (package_repository.Apt Fixture.apt_riscv) Fixture.fresh).
  destruct (file_written_before_registration Fixture.env Fixture.mgr
              Fixture.apt_riscv Fixture.fresh
              (snd (_install_sources_apt Fixture.env Fixture.mgr
                      Fixture.apt_riscv Fixture.fresh))
              eq_refl ltac:(vm_compute; reflexivity))
    as (kw & Hrecord & _ & Hrun).
  injection Hrecord as <-.
  destruct (Hrun (fst run) (snd run) (eq_sym (surjective_pairing run)))
    as (_ & Hfs & _ & Hfail).
  destruct (Hfail ["amd64"] "riscv64" ["arm64"] eq_refl
              ltac:(repeat constructor) eq_refl) as [Hresult Htrace].
  rewrite (surjective_pairing run), Hresult.
  f_equal.
Defined.

(** ** Idempotence *)

Lemma universal_newlines_id (s : string) :
  Py.CR ∉ list_ascii_of_string s -> Py.universal_newlines s = s.
Proof.
  induction s as [|c rest IH]; [reflexivity|].
  cbn [list_ascii_of_string]. rewrite not_elem_of_cons. intros [Hc Hrest].
  cbn [Py.universal_newlines].
  destruct (Ascii.eqb_spec c Py.CR) as [->|_]; [done|].
  by rewrite IH.
Qed.

(** After a run that returned, a further run on the same files is a
    no-op, provided the text just written reads back as it is. *)
Lemma install_sources_again (env : Env) (self : AptSourcesManager)
    (kw : SourceArgs) (w w' w'' : World) (changed : bool) :
  _install_sources env self kw w = (Ok changed, w') ->
  (changed = true ->
   Py.universal_newlines (rendered env kw) = rendered env kw) ->
  fs w'' = fs w' ->
  _install_sources env self kw w'' = (Ok false, w'').
Proof.
  intros (Hkeyring & Hchanged & ->)%install_sources_returns Hreads Hfs.
  destruct Hkeyring as [content Hkeyring].
  assert (exists content', fs w'' !! keyring_path kw = Some (File content'))
    as [content' Hkeyring'].
  { rewrite Hfs. destruct changed; [|eauto]. cbn [fs written].
    destruct (decide (source_file self (name kw) = keyring_path kw)) as [->|Hne].
    - rewrite lookup_insert_eq. eauto.
    - rewrite lookup_insert_ne by done. eauto. }
  apply (install_sources_settled env self kw w'' content' Hkeyring').
  unfold installed. rewrite Hfs. destruct changed.
  - cbn [fs written]. rewrite lookup_insert_eq, Hreads by reflexivity.
    apply String.eqb_refl.
  - fold (installed w (source_file self (name kw)) (rendered env kw)).
    by destruct (installed w _ _).
Qed.

(** C1, as the code has it.  When the installation of a descriptor
    returns, it reports a change exactly when the target file did not
    already read back as the rendered text, and the files differ from the
    earlier ones by that one file at most.  A second installation, the
    external facts unchanged, then reports no change and leaves the host
    exactly as the first one left it (no write, no command, the same
    file contents), provided the text written by the first one reads
    back as it was written, which it does when it holds no carriage
    return. *)
Theorem installation_is_idempotent (env : Env) (self : AptSourcesManager)
    (package_repo : package_repository.PackageRepository) (w0 w1 : World)
    (changed : bool) :
  install_package_repository_sources env self package_repo w0
  = (Ok changed, w1) ->
  exists kw,
    let config_path := source_file self (name kw) in
    let config := rendered env kw in
    canonical_record env self package_repo = Ok kw
    /\ changed = negb (installed w0 config_path config)
    /\ fs w1 = (if changed then <[config_path := File config]> (fs w0)
                else fs w0)
    /\ ((changed = true -> Py.CR ∉ list_ascii_of_string config) ->
        install_package_repository_sources env self package_repo w1
        = (Ok false, w1)).
Proof.
  intros Hrun.
  assert (exists w', canonicalize env self package_repo w0 = (Ok changed, w')
                     /\ fs w1 = fs w') as (w' & Hsync & Hfs).
  { rewrite install_canonicalize in Hrun.
    destruct package_repo as [r|r|r|];
      try (exists w1; split; [exact Hrun|reflexivity]).
    destruct (canonicalize env self (package_repository.Apt r) w0)
      as [[changed'|e] w'] eqn:Hsync; [|discriminate].
    exists w'. destruct (changed' && _).
    - rewrite add_architecture_run in Hrun.
      destruct (first_failure _ _); [discriminate|].
      by injection Hrun as <- <-.
    - by injection Hrun as <- <-. }
  pose proof Hsync as Hsync'. rewrite canonicalize_record in Hsync'.
  destruct (canonical_record env self package_repo) as [kw|e] eqn:Hrecord;
    [|discriminate].
  exists kw. cbv zeta.
  pose proof (install_sources_returns _ _ _ _ _ _ Hsync')
    as (_ & Hchanged & Hw').
  repeat apply conj; [reflexivity|exact Hchanged| |].
  - rewrite Hfs, Hw'. by destruct changed.
  - intros Hreads.
    assert (canonicalize env self package_repo w1 = (Ok false, w1)) as Hagain.
    { rewrite canonicalize_record, Hrecord.
      apply (install_sources_again env self kw w0 w' w1 changed Hsync');
        [|exact Hfs].
      intros Hc. apply universal_newlines_id. by apply Hreads. }
    rewrite install_canonicalize, Hagain. by destruct package_repo.
Qed.

Lemma installation_is_idempotent_witness :
  let first_run :=
    install_package_repository_sources Fixture.env Fixture.mgr
      (package_repository.Apt Fixture.apt_suites) Fixture.fresh in
  fst first_run = Ok true
  /\ install_package_repository_sources Fixture.env Fixture.mgr
       (package_repository.Apt Fixture.apt_suites) (snd first_run)
     = (Ok false, snd first_run).
Proof.
  cbv zeta.
  set (first_run := install_package_repository_sources Fixture.env Fixture.mgr
                      (package_repository.Apt Fixture.apt_suites)
                      Fixture.fresh).
  assert (first_run = (Ok true, snd first_run)) as Hrun
    by (vm_compute; reflexivity).
  split; [vm_compute; reflexivity|].
  destruct (installation_is_idempotent Fixture.env Fixture.mgr
              (package_repository.Apt Fixture.apt_suites) Fixture.fresh
              (snd first_run) true Hrun)
    as (kw & Hrecord & _ & _ & Hagain).
  injection Hrecord as <-.
  apply Hagain. intros _.
  apply (bool_decide_unpack _). vm_compute. exact I.
Defined.

(** C1, as stated, fails: on a host where the source file is already in
    place, the first installation reports no change. *)
Lemma first_installation_may_report_unchanged :
  install_package_repository_sources Fixture.env Fixture.mgr
    (package_repository.Apt Fixture.apt_bare) Fixture.settled
  = (Ok false, Fixture.settled).
Proof. vm_compute. reflexivity. Qed.

(** A rendered text with a carriage return does not read back as it was
    written: the second installation writes the file again. *)
Example carriage_return_is_rewritten :
  let first_run :=
    install_package_repository_sources Fixture.env Fixture.mgr
      (package_repository.Apt Fixture.apt_carriage_return) Fixture.fresh in
  let second_run :=
    install_package_repository_sources Fixture.env Fixture.mgr
      (package_repository.Apt Fixture.apt_carriage_return) (snd first_run) in
  fst first_run = Ok true
  /\ fst second_run = Ok true
  /\ length (writes (trace (snd second_run))) = 2.
Proof. vm_compute. repeat split. Qed.

(** * Further properties of the module *)

(** ** Failures of the synchronizer *)

(** The synchronizer fails in two ways only, and leaves the world as it
    was when it does. *)
Lemma install_sources_raises (env : Env) (self : AptSourcesManager)
    (kw : SourceArgs) (w w' : World) (e : Exception) :
  _install_sources env self kw w = (Raise e, w') ->
  w' = w
  /\ ((e = AptGPGKeyringError (keyring_path kw)
       /\ forall content, fs w !! keyring_path kw <> Some (File content))
      \/ (e = IsADirectoryError (source_file self (name kw))
          /\ fs w !! source_file self (name kw) = Some Dir)).
Proof.
  rewrite install_sources_run.
  destruct (fs w !! keyring_path kw) as [[content|]|] eqn:Hkeyring.
  - destruct (fs w !! source_file self (name kw)) as [[stored|]|];
      [destruct (String.eqb _ _)| |]; intros [= <- <-]; auto.
  - intros [= <- <-]. split; [reflexivity|left]. by split.
  - intros [= <- <-]. split; [reflexivity|left]. by split.
Qed.

(** ** Empty fields *)

(** X1. An empty list in a Plain descriptor (architectures, components,
    formats, suites) and an empty path are treated exactly like absent
    ones: the installation of the descriptor and of the descriptor
    without its empty fields do the same to every host. *)
Theorem empty_fields_are_absent (env : Env) (self : AptSourcesManager)
    (r : package_repository.PackageRepositoryApt) (w : World) :
  install_package_repository_sources env self (package_repository.Apt r) w
  = install_package_repository_sources env self
      (package_repository.Apt (without_empty_fields r)) w.
Proof.
  destruct r as [[[|arch archs]|] [[|comp comps]|] [[|fmt fmts]|] key nm
                   [[|c rest]|] [[|suite more]|] u];
    reflexivity.
Qed.

(** ** The suites of a Plain descriptor *)

(** X2. A Plain descriptor without a path whose suite list is not empty
    keeps its suites as they are, whatever its components. *)
Theorem suites_pass_through (env : Env) (self : AptSourcesManager)
    (r : package_repository.PackageRepositoryApt) (suite : string)
    (more : list string) (w : World) :
  Py.truthy_str (package_repository.path r) = false ->
  package_repository.suites r = Some (suite :: more) ->
  _install_sources_apt env self r w
  = _install_sources env self
      {| architectures := package_repository.architectures r;
         components := package_repository.components r;
         formats := package_repository.formats r;
         name := package_repository.name r;
         suites := suite :: more;
         url := package_repository.url r;
         keyring_path :=
           get_keyring_path env (package_repository.key_id r)
             (_keyrings_dir self) |} w.
Proof.
  intros Hpath Hsuites. rewrite install_sources_apt_record.
  unfold canonical_record, plain_suites. rewrite Hsuites.
  by destruct (package_repository.path r) as [[|c rest]|].
Qed.

Lemma suites_pass_through_witness :
  _install_sources_apt Fixture.env Fixture.mgr Fixture.apt_suites Fixture.fresh
  = _install_sources Fixture.env Fixture.mgr
      {| architectures := Some ["amd64"; "arm64"];
         components := Some ["test-component"];
         formats := Some ["deb"; "deb-src"];
         name := "http_test_url_ubuntu";
         suites := ["test-suite1"; "test-suite2"];
         url := "http://test.url/ubuntu";
         keyring_path := "/tmp/keyrings/craft-AAAAAAAA.gpg" |} Fixture.fresh.
Proof.
  exact (suites_pass_through Fixture.env Fixture.mgr Fixture.apt_suites
           "test-suite1" ["test-suite2"] Fixture.fresh eq_refl eq_refl).
Defined.

(** X3. The canonicalizer of a Plain descriptor raises its
    [RuntimeError] exactly when the descriptor has components but
    neither a path nor suites; the error comes before the keyring is
    looked at, and the host is left as it was. *)
Theorem no_suites_or_path (env : Env) (self : AptSourcesManager)
    (r : package_repository.PackageRepositoryApt) (w w' : World)
    (message : string) :
  _install_sources_apt env self r w = (Raise (RuntimeError message), w')
  <-> (Py.truthy_str (package_repository.path r) = false
       /\ Py.truthy (package_repository.suites r) = false
       /\ Py.truthy (package_repository.components r) = true)
      /\ message = "no suites or path" /\ w' = w.
Proof.
  rewrite install_sources_apt_record. unfold canonical_record, plain_suites.
  destruct (package_repository.path r) as [[|c rest]|];
    destruct (package_repository.suites r) as [[|suite more]|];
    destruct (package_repository.components r) as [[|comp comps]|];
    cbn [Py.truthy_str Py.truthy];
    (split;
     [ first [ intros [= <- <-]; by repeat split
             | intros [_ [[Hkey _]|[Hdir _]]]%install_sources_raises;
               discriminate ]
     | first [ by intros [_ [-> ->]]
             | intros [(? & ? & ?) _]; discriminate ] ]).
Qed.

Lemma no_suites_or_path_witness :
  _install_sources_apt Fixture.env Fixture.mgr Scenario.apt_components_only
    Fixture.empty
  = (Raise (RuntimeError "no suites or path"), Fixture.empty).
Proof.
  apply (no_suites_or_path Fixture.env Fixture.mgr
           Scenario.apt_components_only Fixture.empty Fixture.empty).
  repeat split.
Defined.

(** ** What an installation does to the host *)

(** The orchestrator: the outcome of the canonicalizer, followed for a
    Plain descriptor that changed and declares architectures by the
    registrar. *)
Lemma install_outcome (env : Env) (self : AptSourcesManager)
    (package_repo : package_repository.PackageRepository) (w w' : World)
    (result : Result bool) :
  install_package_repository_sources env self package_repo w = (result, w') ->
  (canonicalize env self package_repo w = (result, w')
   /\ forall r, package_repo = package_repository.Apt r ->
                result = Ok true ->
                Py.truthy (package_repository.architectures r) = false)
  \/ exists r w1,
       package_repo = package_repository.Apt r
       /\ canonicalize env self package_repo w = (Ok true, w1)
       /\ Py.truthy (package_repository.architectures r) = true
       /\ w' = {| fs := fs w1;
                  trace :=
                    trace w1
                    ++ map (fun arch => SubprocessRun (dpkg_add_architecture arch))
                         (attempted env
                            (Py.items (package_repository.architectures r))) |}
       /\ result
          = match first_failure env
                    (Py.items (package_repository.architectures r)) with
            | None => Ok true
            | Some arch =>
                Raise (CalledProcessError (dpkg_add_architecture arch))
            end.
Proof.
  destruct package_repo as [r|r|r|];
    try (intros Hrun; left; split; [exact Hrun|discriminate]).
  rewrite install_apt_run. cbn [canonicalize].
  destruct (_install_sources_apt env self r w) as [[[|]|e] w1];
    try (intros [= <- <-]; left; split; [reflexivity|discriminate]).
  destruct (Py.truthy (package_repository.architectures r)) eqn:Hdeclared;
    cbn [andb].
  - intros [= <- <-]. right. by exists r, w1.
  - intros [= <- <-]. left. split; [reflexivity|]. by intros ? [= <-] _.
Qed.

Lemma first_failure_none (env : Env) (architectures : list string) :
  first_failure env architectures = None ->
  attempted env architectures = architectures.
Proof.
  unfold first_failure.
  induction architectures as [|arch rest IH]; [done|]. cbn.
  destruct (subprocess_succeeds env (dpkg_add_architecture arch)); cbn;
    [|discriminate].
  intros Hrest. by rewrite IH.
Qed.


Lemma writes_app (events more : list Event) :
  writes (events ++ more) = writes events ++ writes more.
Proof. apply omap_app. Qed.

Lemma writes_registrations (architectures : list string) :
  writes (map (fun arch => SubprocessRun (dpkg_add_architecture arch))
            architectures) = [].
Proof. by induction architectures. Qed.





(** X6. The value an installation returns tells what it did.  [False]:
    the host is exactly as before.  [True]: the source file of the
    canonical record was written, once, and the commands run are the
    registrations of all the architectures a Plain descriptor declares,
    in their order (none for the other descriptors). *)
Theorem return_value_tells_the_effect (env : Env) (self : AptSourcesManager)
    (package_repo : package_repository.PackageRepository) (w w' : World)
    (changed : bool) :
  install_package_repository_sources env self package_repo w
  = (Ok changed, w') ->
  if changed then
    exists kw,
      canonical_record env self package_repo = Ok kw
      /\ fs w' = <[source_file self (name kw) := File (rendered env kw)]> (fs w)
      /\ writes (trace w')
         = writes (trace w) ++ [(source_file self (name kw), rendered env kw)]
      /\ subprocess_calls (trace w')
         = subprocess_calls (trace w)
           ++ match package_repo with
              | package_repository.Apt r =>
                  map dpkg_add_architecture
                    (Py.items (package_repository.architectures r))
              | _ => []
              end
  else w' = w.
Proof.
  intros [[Hsync Hplain]|(r & w1 & -> & Hsync & Hdeclared & -> & Hresult)]
    %install_outcome.
  - apply canonicalize_effect in Hsync
      as [[Hchanged ->]|(kw & Hrecord & [= ->] & ->)].
    { destruct changed; [done|reflexivity]. }
    exists kw. repeat apply conj; [done|done| |].
    + cbn [trace written]. by rewrite writes_app.
    + rewrite subprocess_calls_written.
      destruct package_repo as [r|r|r|]; try by rewrite app_nil_r.
      specialize (Hplain r eq_refl eq_refl).
      destruct (package_repository.architectures r) as [[|arch archs]|];
        try discriminate; by rewrite app_nil_r.
  - destruct (first_failure env _) eqn:Hfailure; [discriminate|].
    injection Hresult as ->.
    apply canonicalize_effect in Hsync as [[[] _]|(kw & Hrecord & _ & ->)];
      [reflexivity|].
    exists kw. cbn [fs trace written]. repeat apply conj; [done|done| |].
    + rewrite !writes_app, writes_registrations. cbn. by rewrite app_nil_r.
    + rewrite !subprocess_calls_app, subprocess_calls_registrations,
        (first_failure_none _ _ Hfailure). cbn. by rewrite app_nil_r.
Qed.

Lemma return_value_tells_the_effect_witness :
  snd (install_package_repository_sources Fixture.env Fixture.mgr
         (package_repository.Apt Fixture.apt_bare) Fixture.settled)
  = Fixture.settled.
Proof.
  exact (return_value_tells_the_effect Fixture.env Fixture.mgr
           (package_repository.Apt Fixture.apt_bare) Fixture.settled
           (snd (install_package_repository_sources Fixture.env Fixture.mgr
                   (package_repository.Apt Fixture.apt_bare) Fixture.settled))
           false ltac:(vm_compute; reflexivity)).
Defined.

(** X7. When an installation returns, the source file of the canonical
    record is a regular file holding the rendered text (exactly, when it
    was just written; up to the newline translation of a text read, when
    it was found in place), and the keyring its Signed-By field names is
    a regular file too. *)
Theorem installed_source_and_keyring_exist (env : Env)
    (self : AptSourcesManager)
    (package_repo : package_repository.PackageRepository) (w w' : World)
    (changed : bool) :
  install_package_repository_sources env self package_repo w
  = (Ok changed, w') ->
  exists kw content keyring,
    canonical_record env self package_repo = Ok kw
    /\ fs w' !! source_file self (name kw) = Some (File content)
    /\ (if changed then content = rendered env kw
        else Py.universal_newlines content = rendered env kw)
    /\ fs w' !! keyring_path kw = Some (File keyring).
Proof.
  intros Hrun.
  assert (exists w1, canonicalize env self package_repo w = (Ok changed, w1)
                     /\ fs w' = fs w1) as (w1 & Hsync & ->).
  { apply install_outcome in Hrun
      as [[Hsync _]|(r & w1 & -> & Hsync & _ & -> & Hresult)]; [by eexists|].
    destruct (first_failure env _); [discriminate|].
    injection Hresult as ->. by exists w1. }
  rewrite canonicalize_record in Hsync.
  destruct (canonical_record env self package_repo) as [kw|e]; [|discriminate].
  apply install_sources_returns in Hsync as ([keyring Hkeyring] & Hchanged & ->).
  destruct changed.
  - exists kw, (rendered env kw). cbn [fs written].
    destruct (decide (source_file self (name kw) = keyring_path kw))
      as [Heq|Hne].
    + exists (rendered env kw). rewrite <- Heq, lookup_insert_eq. by repeat split.
    + exists keyring. rewrite lookup_insert_eq, lookup_insert_ne by done.
      by repeat split.
  - unfold installed in Hchanged.
    destruct (fs w !! source_file self (name kw)) as [[content|]|] eqn:Htarget;
      try discriminate.
    exists kw, content, keyring. repeat split; try done.
    apply String.eqb_eq. by destruct (String.eqb _ _).
Qed.

Lemma installed_source_and_keyring_exist_witness :
  exists kw content keyring,
    canonical_record Fixture.env Fixture.mgr
      (package_repository.AptPPA Fixture.ppa) = Ok kw
    /\ fs (snd (install_package_repository_sources Fixture.env Fixture.mgr
                  (package_repository.AptPPA Fixture.ppa) Fixture.fresh))
       !! source_file Fixture.mgr (name kw) = Some (File content)
    /\ content = rendered Fixture.env kw
    /\ fs (snd (install_package_repository_sources Fixture.env Fixture.mgr
                  (package_repository.AptPPA Fixture.ppa) Fixture.fresh))
       !! keyring_path kw = Some (File keyring).
Proof.
  exact (installed_source_and_keyring_exist Fixture.env Fixture.mgr
           (package_repository.AptPPA Fixture.ppa) Fixture.fresh
           (snd (install_package_repository_sources Fixture.env Fixture.mgr
                   (package_repository.AptPPA Fixture.ppa) Fixture.fresh))
           true ltac:(vm_compute; reflexivity)).
Defined.

Lemma canonical_record_apt_raises (env : Env) (self : AptSourcesManager)
    (r : package_repository.PackageRepositoryApt) (e : Exception) :
  canonical_record env self (package_repository.Apt r) = Raise e ->
  e = RuntimeError "no suites or path".
Proof.
  unfold canonical_record, plain_suites.
  destruct (package_repository.path r) as [[|c rest]|];
    destruct (package_repository.suites r) as [[|suite more]|];
    destruct (package_repository.components r) as [[|comp comps]|];
    by intros [= <-].
Qed.

(** X8. A failed registration is not retried.  When the installation of
    a Plain descriptor ends with the failure of a registration command,
    the source file is already up to date, so installing the same
    descriptor again reports no change and runs no command at all: the
    declared architectures stay unregistered. (As everywhere, the
    rendered text is taken to hold no carriage return.) *)
Theorem failed_registration_is_not_retried (env : Env)
    (self : AptSourcesManager) (r : package_repository.PackageRepositoryApt)
    (w w1 : World) (cmd : list string) :
  install_package_repository_sources env self (package_repository.Apt r) w
  = (Raise (CalledProcessError cmd), w1) ->
  exists kw,
    canonical_record env self (package_repository.Apt r) = Ok kw
    /\ (Py.CR ∉ list_ascii_of_string (rendered env kw) ->
        install_package_repository_sources env self (package_repository.Apt r) w1
        = (Ok false, w1)).
Proof.
  intros [[Hsync _]|(r' & w' & [= <-] & Hsync & _ & -> & _)]%install_outcome;
    rewrite canonicalize_record in Hsync;
    destruct (canonical_record env self (package_repository.Apt r))
      as [kw|e] eqn:Hrecord.
  - by apply install_sources_raises in Hsync as [_ [[[=] _]|[[=] _]]].
  - injection Hsync as -> _. by apply canonical_record_apt_raises in Hrecord.
  - exists kw. split; [reflexivity|]. intros Hreads.
    rewrite install_canonicalize, canonicalize_record, Hrecord.
    rewrite (install_sources_again env self kw w w' _ true Hsync);
      [reflexivity| |reflexivity].
    intros _. by apply universal_newlines_id.
  - discriminate.
Qed.

Lemma failed_registration_is_not_retried_witness :
  let failed :=
    install_package_repository_sources Fixture.env Fixture.mgr
      (package_repository.Apt Fixture.apt_riscv) Fixture.fresh in
  fst failed
  = Raise (CalledProcessError ["dpkg"; "--add-architecture"; "riscv64"])
  /\ install_package_repository_sources Fixture.env Fixture.mgr
       (package_repository.Apt Fixture.apt_riscv) (snd failed)
     = (Ok false, snd failed).
Proof.
  cbv zeta. split; [vm_compute; reflexivity|].
  destruct (failed_registration_is_not_retried Fixture.env Fixture.mgr
              Fixture.apt_riscv Fixture.fresh
              (snd (install_package_repository_sources Fixture.env Fixture.mgr
                      (package_repository.Apt Fixture.apt_riscv)
                      Fixture.fresh))
              ["dpkg"; "--add-architecture"; "riscv64"]
              ltac:(vm_compute; reflexivity)) as (kw & Hrecord & Hagain).
  injection Hrecord as <-. apply Hagain.
  apply (bool_decide_unpack _). vm_compute. exact I.
Defined.

(** ** Source files of several records *)

Lemma list_ascii_of_string_app (s t : string) :
  list_ascii_of_string (s +:+ t)
  = list_ascii_of_string s ++ list_ascii_of_string t.
Proof.
  induction s as [|a s IH]; [reflexivity|].
  rewrite string_app_cons. cbn [list_ascii_of_string app]. by rewrite IH.
Qed.











(** ** The registrar on its own *)

(** X12. Registering a list made of two parts is registering the first
    part and then, if that did not fail, the second. *)
Theorem add_architecture_app (env : Env) (before after : list string)
    (w : World) :
  _add_architecture env (before ++ after) w
  = (_add_architecture env before >> _add_architecture env after) w.
Proof.
  revert w. induction before as [|arch rest IH]; intros w; [reflexivity|].
  cbn [app _add_architecture]. unfold bind in *.
  destruct (subprocess_run env _ w) as [[[]|e] w1]; [|reflexivity].
  apply IH.
Qed.



(** ** The target file as it is found *)

(** X14. When a directory sits where the source file belongs (and the
    keyring is in place), the installation fails with the error of
    reading a directory, and nothing is written: the existence test does
    not tell a directory from a file. *)
Theorem directory_in_the_way (env : Env) (self : AptSourcesManager)
    (package_repo : package_repository.PackageRepository) (kw : SourceArgs)
    (w : World) (keyring : string) :
  canonical_record env self package_repo = Ok kw ->
  fs w !! keyring_path kw = Some (File keyring) ->
  fs w !! source_file self (name kw) = Some Dir ->
  install_package_repository_sources env self package_repo w
  = (Raise (IsADirectoryError (source_file self (name kw))), w).
Proof.
  intros Hrecord Hkeyring Htarget. apply install_raises.
  by rewrite canonicalize_record, Hrecord, install_sources_run, Hkeyring,
    Htarget.
Qed.

Lemma directory_in_the_way_witness :
  install_package_repository_sources Fixture.env Fixture.mgr
    (package_repository.Apt Fixture.apt_bare) Scenario.blocked
  = (Raise (IsADirectoryError
              "/tmp/sources.list.d/craft-http_test_url_ubuntu.sources"),
     Scenario.blocked).
Proof.
  exact (directory_in_the_way Fixture.env Fixture.mgr
           (package_repository.Apt Fixture.apt_bare) _ Scenario.blocked ""
           eq_refl ltac:(vm_compute; reflexivity)
           ltac:(vm_compute; reflexivity)).
Defined.

Lemma universal_newlines_crlf (s : string) :
  Py.CR ∉ list_ascii_of_string s -> Py.universal_newlines (crlf s) = s.
Proof.
  induction s as [|c rest IH]; [reflexivity|].
  cbn [list_ascii_of_string]. rewrite not_elem_of_cons. intros [Hc Hrest].
  cbn [crlf]. destruct (Ascii.eqb_spec c Py.LF) as [->|Hlf].
  - cbn. by rewrite IH.
  - cbn [Py.universal_newlines].
    destruct (Ascii.eqb_spec c Py.CR) as [->|_]; [done|]. by rewrite IH.
Qed.

(** X15. The comparison with the file in place is one of texts, not of
    bytes: a source file that holds the rendered text with DOS line
    endings counts as installed, and the synchronizer leaves it as it
    is. *)
Theorem dos_line_endings_count_as_installed (env : Env)
    (self : AptSourcesManager) (kw : SourceArgs) (w : World)
    (keyring : string) :
  Py.CR ∉ list_ascii_of_string (rendered env kw) ->
  fs w !! keyring_path kw = Some (File keyring) ->
  fs w !! source_file self (name kw) = Some (File (crlf (rendered env kw))) ->
  _install_sources env self kw w = (Ok false, w).
Proof.
  intros Hreads Hkeyring Htarget.
  apply (install_sources_settled env self kw w keyring Hkeyring).
  unfold installed. rewrite Htarget, universal_newlines_crlf by done.
  apply String.eqb_refl.
Qed.

Lemma dos_line_endings_count_as_installed_witness :
  _install_sources_apt Fixture.env Fixture.mgr Fixture.apt_bare Scenario.dos
  = (Ok false, Scenario.dos).
Proof.
  rewrite install_sources_apt_record. cbn [canonical_record plain_suites].
  apply (dos_line_endings_count_as_installed Fixture.env Fixture.mgr _
           Scenario.dos "").
  - apply (bool_decide_unpack _). vm_compute. exact I.
  - vm_compute. reflexivity.
  - vm_compute. reflexivity.
Defined.

(** ** The default directories *)

(** X16. A manager built without a sources directory writes a record
    whose name is not reserved to
    [/etc/apt/sources.list.d/craft-<name>.sources], as the docstring of
    the synchronizer says; a manager built with a directory writes
    under that one. *)
Theorem default_sources_directory (env : Env) (KEYRINGS_PATH : Path)
    (sources_list_d keyrings_dir : option Path) (kw : SourceArgs)
    (w w' : World) :
  name kw <> "default" ->
  name kw <> "default-security" ->
  _install_sources env (__init__ KEYRINGS_PATH sources_list_d keyrings_dir) kw w
  = (Ok true, w') ->
  fs w' !! (match sources_list_d with
            | None => "/etc/apt/sources.list.d"
            | Some directory => directory
            end +:+ "/craft-" +:+ name kw +:+ ".sources")
  = Some (File (rendered env kw)).
Proof.
  intros Hdefault Hsecurity (_ & _ & ->)%install_sources_returns.
  cbn [fs written].
  replace (source_file (__init__ KEYRINGS_PATH sources_list_d keyrings_dir)
             (name kw))
    with (match sources_list_d with
          | None => "/etc/apt/sources.list.d"
          | Some directory => directory
          end +:+ "/craft-" +:+ name kw +:+ ".sources").
  { apply lookup_insert_eq. }
  unfold source_file, path_join, source_file_name, __init__.
  cbn [_sources_list_d].
  destruct (String.eqb_spec (name kw) "default") as [|_]; [done|].
  destruct (String.eqb_spec (name kw) "default-security") as [|_]; [done|].
  destruct sources_list_d as [directory|]; cbn [default];
    by rewrite !string_app_assoc.
Qed.

Lemma default_sources_directory_witness :
  fs (snd (_install_sources Fixture.env (__init__ "/etc/apt/keyrings" None
                                            (Some "/tmp/keyrings"))
             Scenario.main_archive Fixture.fresh))
  !! "/etc/apt/sources.list.d/craft-main-archive.sources"
  = Some (File (rendered Fixture.env Scenario.main_archive)).
Proof.
  exact (default_sources_directory Fixture.env "/etc/apt/keyrings" None
           (Some "/tmp/keyrings") Scenario.main_archive Fixture.fresh _
           ltac:(discriminate) ltac:(discriminate)
           ltac:(vm_compute; reflexivity)).
Defined.

(** ** Characters of the rendered text *)

Lemma not_in_string_app (c : ascii) (s t : string) :
  c ∉ list_ascii_of_string (s +:+ t)
  <-> (c ∉ list_ascii_of_string s) /\ (c ∉ list_ascii_of_string t).
Proof. by rewrite list_ascii_of_string_app, not_elem_of_app. Qed.

Lemma not_in_join (c : ascii) (values : list string) :
  c <> " "%char ->
  Forall (fun value => c ∉ list_ascii_of_string value) values ->
  c ∉ list_ascii_of_string (Py.join " " values).
Proof.
  intros Hspace. induction 1 as [|value rest Hvalue Hrest IH].
  - apply not_elem_of_nil.
  - destruct rest as [|next rest]; [exact Hvalue|].
    change (Py.join " " (value :: next :: rest))
      with (value +:+ " " +:+ Py.join " " (next :: rest)).
    rewrite !not_in_string_app. repeat split; [done| |done].
    cbn. rewrite not_elem_of_cons. split; [done|apply not_elem_of_nil].
Qed.

(** A character that is in no key and in no value is in the text of a
    stanza as often as it is in the line ends. *)
Lemma stanza_text_free (c : ascii) (fields : list (string * string)) :
  c <> ":"%char -> c <> " "%char -> c <> Py.LF ->
  Forall (fun field => (c ∉ list_ascii_of_string (fst field))
                       /\ (c ∉ list_ascii_of_string (snd field))) fields ->
  c ∉ list_ascii_of_string (stanza_text fields).
Proof.
  intros Hcolon Hspace Hlf. induction 1 as [|[key value] rest [Hk Hv] _ IH].
  - apply not_elem_of_nil.
  - cbn [stanza_text foldr]. fold (stanza_text rest). unfold field_line.
    cbn [fst snd] in *. rewrite !not_in_string_app.
    repeat split; try done; cbn; rewrite ?not_elem_of_cons;
      repeat split; try done; apply not_elem_of_nil.
Qed.

Lemma free_of_stanza (c : ascii) (host : string)
    (architectures components formats : option (list string))
    (suites : list string) (url : string) (signed_by : Path) :
  c <> " "%char ->
  (forall key, key ∈ ["Types"; "URIs"; "Suites"; "Components";
                      "Architectures"; "Signed-By"; "deb"] ->
               c ∉ list_ascii_of_string key) ->
  free_of c host architectures components formats suites url signed_by ->
  Forall (fun field => (c ∉ list_ascii_of_string (fst field))
                       /\ (c ∉ list_ascii_of_string (snd field)))
    (deb822_stanza host architectures components formats suites url signed_by).
Proof.
  intros Hspace Hkeys (Hhost & Hurl & Hsigned & Hvalues).
  rewrite !Forall_app in Hvalues.
  destruct Hvalues as (Hsuites & Hformats & Hcomponents & Harchitectures).
  assert (forall key value,
            key ∈ ["Types"; "URIs"; "Suites"; "Components"; "Architectures";
                   "Signed-By"; "deb"] ->
            c ∉ list_ascii_of_string value ->
            (c ∉ list_ascii_of_string (fst (key, value)))
            /\ (c ∉ list_ascii_of_string (snd (key, value)))) as Hfield.
  { intros key value Hin Hvalue. split; [by apply Hkeys|exact Hvalue]. }
  assert (c ∉ list_ascii_of_string
                (match formats with
                 | Some (fmt :: more) => Py.join " " (fmt :: more)
                 | _ => "deb"
                 end)) as Htypes.
  { destruct formats as [[|fmt fmts]|]; [| by apply not_in_join |];
      apply Hkeys; rewrite !elem_of_cons; tauto. }
  assert (c ∉ list_ascii_of_string
                (match architectures with
                 | Some (arch :: more) => Py.join " " (arch :: more)
                 | _ => host
                 end)) as Harch.
  { destruct architectures as [[|arch archs]|]; [done| by apply not_in_join |done]. }
  assert (c ∉ list_ascii_of_string (Py.join " " suites)) as Hsuite
    by (by apply not_in_join).
  unfold deb822_stanza. apply Forall_app; split; [|apply Forall_app; split].
  - constructor; [|constructor; [|constructor; [|constructor]]].
    + apply Hfield; [rewrite !elem_of_cons; tauto|exact Htypes].
    + apply Hfield; [rewrite !elem_of_cons; tauto|exact Hurl].
    + apply Hfield; [rewrite !elem_of_cons; tauto|exact Hsuite].
  - destruct components as [[|comp comps]|]; [constructor| |constructor].
    constructor; [|constructor].
    apply Hfield; [rewrite !elem_of_cons; tauto|by apply not_in_join].
  - constructor; [|constructor; [|constructor]].
    + apply Hfield; [rewrite !elem_of_cons; tauto|exact Harch].
    + apply Hfield; [rewrite !elem_of_cons; tauto|exact Hsigned].
Qed.

Lemma keys_free_of (c : ascii) :
  bool_decide
    (Forall (fun key : string => c ∉ list_ascii_of_string key)
       ["Types"; "URIs"; "Suites"; "Components"; "Architectures";
        "Signed-By"; "deb"]) = true ->
  forall key, key ∈ ["Types"; "URIs"; "Suites"; "Components";
                     "Architectures"; "Signed-By"; "deb"] ->
              c ∉ list_ascii_of_string key.
Proof.
  intros Hkeys%bool_decide_eq_true key Hin.
  by apply (proj1 (Forall_forall _ _) Hkeys).
Qed.

(** X17. The rendered text holds a carriage return only when one of the
    values it is rendered from does (the host architecture, the URL, the
    keyring path, an entry of one of the lists); when none does, the
    text reads back from a file as it was written. *)
Theorem rendered_text_reads_back (env : Env)
    (architectures components formats : option (list string))
    (suites : list string) (url : string) (signed_by : Path) :
  free_of Py.CR (get_host_architecture env) architectures components formats
    suites url signed_by ->
  (Py.CR ∉ list_ascii_of_string
             (_construct_deb822_source env architectures components formats
                suites url signed_by))
  /\ Py.universal_newlines
       (_construct_deb822_source env architectures components formats suites
          url signed_by)
     = _construct_deb822_source env architectures components formats suites
         url signed_by.
Proof.
  intros Hfree.
  assert (Py.CR ∉ list_ascii_of_string
                    (_construct_deb822_source env architectures components
                       formats suites url signed_by)) as Hcr.
  { rewrite construct_deb822_source_stanza.
    apply stanza_text_free; try discriminate.
    apply free_of_stanza; [discriminate| |exact Hfree].
    apply keys_free_of. reflexivity. }
  split; [exact Hcr|]. by apply universal_newlines_id.
Qed.

Lemma rendered_text_reads_back_witness :
  Py.universal_newlines (rendered Fixture.env Scenario.main_archive)
  = rendered Fixture.env Scenario.main_archive.
Proof.
  refine (proj2 (rendered_text_reads_back Fixture.env None (Some ["main"]) None
                   ["jammy"] "http://archive.ubuntu.com/ubuntu"
                   "/tmp/keyrings/craft-AAAAAAAA.gpg" _)).
  unfold free_of.
  repeat split; apply (bool_decide_unpack _); vm_compute; exact I.
Defined.

Lemma newlines_app (s t : string) :
  newlines (s +:+ t) = newlines s + newlines t.
Proof.
  unfold newlines. by rewrite list_ascii_of_string_app, count_occ_app.
Qed.

Lemma newlines_free (s : string) :
  Py.LF ∉ list_ascii_of_string s -> newlines s = 0.
Proof.
  intros Hfree. apply count_occ_not_In. by rewrite <- list_elem_of_In.
Qed.

(** X18. When no value holds a newline, the rendered text has exactly
    one line per field: six lines when the component list is not empty,
    five when it is empty or absent. *)
Theorem rendered_text_line_count (env : Env)
    (architectures components formats : option (list string))
    (suites : list string) (url : string) (signed_by : Path) :
  free_of Py.LF (get_host_architecture env) architectures components formats
    suites url signed_by ->
  newlines (_construct_deb822_source env architectures components formats
              suites url signed_by)
  = if Py.truthy components then 6 else 5.
Proof.
  intros Hfree. rewrite construct_deb822_source_stanza.
  apply free_of_stanza in Hfree;
    [|discriminate|apply keys_free_of; reflexivity].
  transitivity (length (deb822_stanza (get_host_architecture env) architectures
                          components formats suites url signed_by)).
  - induction Hfree as [|[key value] rest [Hkey Hvalue] _ IH]; [reflexivity|].
    cbn [stanza_text foldr length]. fold (stanza_text rest).
    unfold field_line. cbn [fst snd] in *.
    rewrite !newlines_app, IH, (newlines_free key), (newlines_free value)
      by done.
    reflexivity.
  - unfold deb822_stanza. by destruct components as [[|comp comps]|].
Qed.

Lemma rendered_text_line_count_witness :
  newlines (rendered Fixture.env Scenario.main_archive) = 6.
Proof.
  refine (rendered_text_line_count Fixture.env None (Some ["main"]) None
            ["jammy"] "http://archive.ubuntu.com/ubuntu"
            "/tmp/keyrings/craft-AAAAAAAA.gpg" _).
  unfold free_of.
  repeat split; apply (bool_decide_unpack _); vm_compute; exact I.
Defined.
